(** * gamble.models.cards: cards, poker hands and decks

    A shallow embedding of [gamble/models/cards.py] and the properties of
    its hand classification and of the deck's draw/shuffle state.

    Python integers are [Z]; Python lists are [list] in index order (the
    last element is the one [list.pop()] removes); a raised exception is a
    [Raise] result, and a method that mutates [self] returns the object's
    new state next to its result, also when it raises. *)

From Stdlib Require Import ZArith String Ascii.
From stdpp Require Import base tactics option list sorting gmap strings.

Local Open Scope string_scope.
Local Open Scope Z_scope.

(** ** Exceptions and results *)

Inductive exn : Type :=
| InvalidCard (msg : string)
| IndexError
| ValueError.

Inductive result (A : Type) : Type :=
| Ok (a : A)
| Raise (e : exn).
Arguments Ok {A} a.
Arguments Raise {A} e.

Definition bind {A B} (r : result A) (k : A -> result B) : result B :=
  match r with
  | Ok a => k a
  | Raise e => Raise e
  end.

Declare Scope py_scope.
Delimit Scope py_scope with py.
Notation "'do' x <- r ; k" := (bind r (fun x => k))
  (at level 10, x name, r at level 100, k at level 200) : py_scope.
Local Open Scope py_scope.

(** [a and b] and [a or b] on expressions that may raise: the right operand
    is evaluated only when the left one does not decide. *)
Definition py_and (a b : result bool) : result bool :=
  do x <- a; if x then b else Ok false.

Definition py_or (a b : result bool) : result bool :=
  do x <- a; if x then Ok true else b.

(** ** Built-ins *)

(** [sorted(l)]: a stable sort that compares with [<] only. *)
Fixpoint py_insert {A} (lt : A -> A -> bool) (x : A) (l : list A) : list A :=
  match l with
  | [] => [x]
  | y :: l' => if lt y x then y :: py_insert lt x l' else x :: y :: l'
  end.

Definition py_sorted {A} (lt : A -> A -> bool) (l : list A) : list A :=
  foldr (py_insert lt) [] l.

(** [sorted(l, reverse=True)]: the list is reversed, sorted and reversed
    again, which keeps the sort stable. *)
Definition py_sorted_reverse {A} (lt : A -> A -> bool) (l : list A) : list A :=
  reverse (py_sorted lt (reverse l)).

(** [l[0]] and [l[-1]]. *)
Definition py_first {A} (l : list A) : result A :=
  match l !! 0%nat with
  | Some x => Ok x
  | None => Raise IndexError
  end.

Definition py_last {A} (l : list A) : result A :=
  match last l with
  | Some x => Ok x
  | None => Raise IndexError
  end.

(** [l.pop()]: the last element and the list without it. *)
Definition py_pop {A} (l : list A) : result (A * list A) :=
  match last l with
  | Some x => Ok (x, removelast l)
  | None => Raise IndexError
  end.

(** [len(range(n))]: a negative bound gives the empty range. *)
Definition range_len (n : Z) : nat := Z.to_nat n.

(** [max(s)] and [min(s)] of a set of integers. *)
Definition py_max (s : gset Z) : result Z :=
  match elements s with
  | [] => Raise ValueError
  | x :: l => Ok (foldr Z.max x l)
  end.

Definition py_min (s : gset Z) : result Z :=
  match elements s with
  | [] => Raise ValueError
  | x :: l => Ok (foldr Z.min x l)
  end.

(** [str.upper()] on text in the ASCII range. *)
Definition upper_ascii (c : ascii) : ascii :=
  let n := nat_of_ascii c in
  if ((97 <=? n) && (n <=? 122))%nat then ascii_of_nat (n - 32) else c.

Fixpoint upper (s : string) : string :=
  match s with
  | EmptyString => EmptyString
  | String c s' => String (upper_ascii c) (upper s')
  end.

Definition lower_ascii (c : ascii) : ascii :=
  let n := nat_of_ascii c in
  if ((65 <=? n) && (n <=? 90))%nat then ascii_of_nat (n + 32) else c.

Fixpoint lower (s : string) : string :=
  match s with
  | EmptyString => EmptyString
  | String c s' => String (lower_ascii c) (lower s')
  end.

(** [list(text)]: the characters as one-character strings. *)
Fixpoint chars (s : string) : list string :=
  match s with
  | EmptyString => []
  | String c s' => String c EmptyString :: chars s'
  end.

(** [collections.Counter(l)]: a dict in insertion order, each key with the
    number of its occurrences. *)
Fixpoint counter_add (k : Z) (c : list (Z * Z)) : list (Z * Z) :=
  match c with
  | [] => [(k, 1)]
  | (k', n) :: c' =>
      if k =? k' then (k', n + 1) :: c' else (k', n) :: counter_add k c'
  end.

Definition Counter (l : list Z) : list (Z * Z) :=
  foldl (fun c k => counter_add k c) [] l.

Definition counter_values (c : list (Z * Z)) : list Z := c.*2.

(** The random source behind [random.shuffle]: the successive results of
    its [_randbelow] calls are read off a stream. *)
Record Rng : Type := mkRng { entropy : nat -> nat; calls : nat }.

Definition randbelow (n : nat) (g : Rng) : nat * Rng :=
  ((entropy g (calls g) mod n)%nat, mkRng (entropy g) (S (calls g))).

(** [x[i], x[j] = x[j], x[i]]. *)
Definition swap {A} (x : list A) (i j : nat) : list A :=
  match x !! i, x !! j with
  | Some a, Some b => <[j:=a]> (<[i:=b]> x)
  | _, _ => x
  end.

(** [random.shuffle(x)]:
    [for i in reversed(range(1, len(x))): j = randbelow(i + 1); swap]. *)
Fixpoint shuffle_down {A} (i : nat) (x : list A) (g : Rng) : list A * Rng :=
  match i with
  | O => (x, g)
  | S i' =>
      let '(j, g') := randbelow (S i) g in
      shuffle_down i' (swap x i j) g'
  end.

Definition random_shuffle {A} (x : list A) (g : Rng) : list A * Rng :=
  shuffle_down (length x - 1)%nat x g.

(** ** Suit, Value, Rank: the namespace classes *)

Module Suit.
Record t : Type := mk {
  name : string; char : string; symbol : string;
  value : Z; color : Z; unicode : Z }.

(** [SimpleNamespace.__eq__] compares the attribute dicts. *)
Definition eqb (a b : t) : bool :=
  bool_decide (name a = name b) && bool_decide (char a = char b)
  && bool_decide (symbol a = symbol b) && bool_decide (value a = value b)
  && bool_decide (color a = color b) && bool_decide (unicode a = unicode b).
End Suit.

Module Value.
Record t : Type := mk { char : string; name : string; value : Z }.

Definition eqb (a b : t) : bool :=
  bool_decide (char a = char b) && bool_decide (name a = name b)
  && bool_decide (value a = value b).
End Value.

Module Rank.
Record t : Type := mk { value : Z; name : string }.
End Rank.

(** ** Card *)

Module Card.

Definition BLACK : Z := 0.
Definition RED : Z := 1.

Module Suits.
Definition SPADES : Suit.t := Suit.mk "spades" "S" "♠" 0 0 127136.
Definition CLUBS : Suit.t := Suit.mk "clubs" "C" "♣" 1 0 127184.
Definition DIAMONDS : Suit.t := Suit.mk "diamonds" "D" "♦" 2 1 127168.
Definition HEARTS : Suit.t := Suit.mk "hearts" "H" "♥" 3 1 127152.

(** The [Suit] attributes of the class as [dir(cls)] lists them, that is
    by attribute name. *)
Definition dir : list Suit.t := [CLUBS; DIAMONDS; HEARTS; SPADES].

Definition all : list Suit.t :=
  py_sorted (fun a b => Suit.value a <? Suit.value b) dir.

Definition dict : gmap string Suit.t :=
  foldl (fun m x => <[Suit.char x := x]> m) ∅ all.
End Suits.

Module Values.
Definition ACE : Value.t := Value.mk "A" "ace" 1.
Definition TWO : Value.t := Value.mk "2" "two" 2.
Definition THREE : Value.t := Value.mk "3" "three" 3.
Definition FOUR : Value.t := Value.mk "4" "four" 4.
Definition FIVE : Value.t := Value.mk "5" "five" 5.
Definition SIX : Value.t := Value.mk "6" "six" 6.
Definition SEVEN : Value.t := Value.mk "7" "seven" 7.
Definition EIGHT : Value.t := Value.mk "8" "eight" 8.
Definition NINE : Value.t := Value.mk "9" "nine" 9.
Definition TEN : Value.t := Value.mk "T" "ten" 10.
Definition JACK : Value.t := Value.mk "J" "jack" 11.
Definition QUEEN : Value.t := Value.mk "Q" "queen" 12.
Definition KING : Value.t := Value.mk "K" "king" 13.

Definition dir : list Value.t :=
  [ACE; EIGHT; FIVE; FOUR; JACK; KING; NINE; QUEEN; SEVEN; SIX; TEN; THREE;
   TWO].

Definition all : list Value.t :=
  py_sorted (fun a b => Value.value a <? Value.value b) dir.

Definition dict : gmap string Value.t :=
  foldl (fun m x => <[Value.char x := x]> m) ∅ all.
End Values.

Record t : Type := mk { value : Value.t; suit : Suit.t }.

(** [Card.get(text)]. The unpacking [value_char, suit_char = ...] raises a
    [ValueError] when the upper-cased text is not two characters long; in
    the ASCII range [upper] keeps the length, so that branch is not taken
    after the length test. *)
Definition get (text : string) : result t :=
  if negb (String.length text =? 2)%nat then
    Raise (InvalidCard "Too many characters for a card!")
  else
    let vals := Values.dict in
    let suits := Suits.dict in
    match chars (upper text) with
    | [value_char; suit_char] =>
        match vals !! value_char with
        | None => Raise (InvalidCard "Invalid value for card!")
        | Some v =>
            match suits !! suit_char with
            | None => Raise (InvalidCard "Invalid suit for card!")
            | Some s => Ok (mk v s)
            end
        end
    | _ => Raise ValueError
    end.

Definition color (self : t) : Z := Suit.color (suit self).


Definition is_black (self : t) : bool := color self =? BLACK.

Definition is_red (self : t) : bool := color self =? RED.

(** [unicode]: the code point of the one-character string that
    [chr(self.suit.unicode + self.value.value + hack)] returns. *)
Definition unicode (self : t) : Z :=
  let hack := if Value.value (value self) >=? 12 then 1 else 0 in
  Suit.unicode (suit self) + Value.value (value self) + hack.

Definition str (self : t) : string :=
  Value.char (value self) ++ Suit.symbol (suit self).

Definition repr (self : t) : string := "<Card:" ++ str self ++ ">".

Definition lt (self other : t) : bool :=
  Value.value (value self) <? Value.value (value other).

Definition gt (self other : t) : bool :=
  Value.value (value self) >? Value.value (value other).

Definition eqb (self other : t) : bool :=
  Suit.eqb (suit self) (suit other) && Value.eqb (value self) (value other).

Definition le (self other : t) : bool := lt self other || eqb self other.

Definition ge (self other : t) : bool := gt self other || eqb self other.

End Card.

(** ** Hand *)

Module Hand.

Module Ranks.
Definition STRAIGHT_FLUSH : Rank.t := Rank.mk 8 "straight flush".
Definition FOUR_OF_A_KIND : Rank.t := Rank.mk 7 "four of a kind".
Definition FULL_HOUSE : Rank.t := Rank.mk 6 "full house".
Definition FLUSH : Rank.t := Rank.mk 5 "flush".
Definition STRAIGHT : Rank.t := Rank.mk 4 "straight".
Definition THREE_OF_A_KIND : Rank.t := Rank.mk 3 "three of a kind".
Definition TWO_PAIR : Rank.t := Rank.mk 2 "two pair".
Definition PAIR : Rank.t := Rank.mk 1 "pair".
Definition HIGH_CARD : Rank.t := Rank.mk 0 "high card".
End Ranks.

Record t : Type := mk {
  _cards : list Card.t;
  cards : list Card.t;
  size : Z;
  value_counts : list (Z * Z);
  suit_counts : list (Z * Z) }.

Definition init (cards : list Card.t) : t :=
  let sorted_cards := py_sorted Card.lt cards in
  mk cards sorted_cards (Z.of_nat (length sorted_cards))
     (Counter ((fun x => Value.value (Card.value x)) <$> sorted_cards))
     (Counter ((fun x => Suit.value (Card.suit x)) <$> sorted_cards)).

Definition len (self : t) : Z := Z.of_nat (length (cards self)).

Definition _vals (self : t) : list Z :=
  py_sorted_reverse Z.ltb (counter_values (value_counts self)).

Definition is_four_of_a_kind (self : t) : result bool :=
  do v <- py_first (_vals self); Ok (v =? 4).

Definition is_full_house (self : t) : result bool :=
  Ok (bool_decide (take 2 (_vals self) = [3; 2])).

Definition is_flush (self : t) : result bool :=
  let suits : gset Z :=
    list_to_set ((fun x => Suit.value (Card.suit x)) <$> cards self) in
  Ok (Z.of_nat (base.size suits) =? 1).

Definition check (self : t) (value_set : gset Z) : result bool :=
  do hi <- py_max value_set;
  do lo <- py_min value_set;
  let value_range := hi - lo in
  Ok ((value_range =? size self - 1)
      && (Z.of_nat (base.size value_set) =? size self)).

Definition is_straight (self : t) : result bool :=
  let values := (fun x => Value.value (Card.value x)) <$> cards self in
  let low_ace : gset Z := list_to_set values in
  let high_ace : gset Z :=
    list_to_set ((fun x => if negb (x =? 1) then x else 14) <$> values) in
  py_or (check self low_ace) (check self high_ace).

Definition is_straight_flush (self : t) : result bool :=
  py_and (is_flush self) (is_straight self).

Definition is_three_of_a_kind (self : t) : result bool :=
  do v <- py_first (_vals self); Ok (v =? 3).

Definition is_two_pair (self : t) : result bool :=
  Ok (bool_decide (take 2 (_vals self) = [2; 2])).

Definition is_one_pair (self : t) : result bool :=
  do v <- py_first (_vals self); Ok (v =? 2).

Definition rank (self : t) : result Rank.t :=
  do b <- is_straight_flush self;
  if b then Ok Ranks.STRAIGHT_FLUSH else
  do b <- is_four_of_a_kind self;
  if b then Ok Ranks.FOUR_OF_A_KIND else
  do b <- is_full_house self;
  if b then Ok Ranks.FULL_HOUSE else
  do b <- is_flush self;
  if b then Ok Ranks.FLUSH else
  do b <- is_straight self;
  if b then Ok Ranks.STRAIGHT else
  do b <- is_three_of_a_kind self;
  if b then Ok Ranks.THREE_OF_A_KIND else
  do b <- is_two_pair self;
  if b then Ok Ranks.TWO_PAIR else
  do b <- is_one_pair self;
  if b then Ok Ranks.PAIR else
  Ok Ranks.HIGH_CARD.

Definition lt (self other : t) : result bool :=
  do r <- rank self; do r' <- rank other; Ok (Rank.value r <? Rank.value r').

Definition gt (self other : t) : result bool :=
  do r <- rank self; do r' <- rank other; Ok (Rank.value r >? Rank.value r').

(** [text.replace(" ", "")] and [text.split(",")]. *)
Fixpoint remove_spaces (s : string) : string :=
  match s with
  | EmptyString => EmptyString
  | String c s' =>
      if Ascii.eqb c " " then remove_spaces s' else String c (remove_spaces s')
  end.

Fixpoint split_commas (cur : string) (s : string) : list string :=
  match s with
  | EmptyString => [cur]
  | String c s' =>
      if Ascii.eqb c "," then cur :: split_commas EmptyString s'
      else split_commas (cur ++ String c EmptyString) s'
  end.

Fixpoint get_cards (codes : list string) : result (list Card.t) :=
  match codes with
  | [] => Ok []
  | x :: codes' =>
      do c <- Card.get x; do cs <- get_cards codes'; Ok (c :: cs)
  end.

Definition get (text : string) : result t :=
  let card_strings := split_commas EmptyString (upper (remove_spaces text)) in
  do cards <- get_cards card_strings; Ok (init cards).

End Hand.

(** ** Deck *)

Module Deck.

Record t : Type := mk { cards : list Card.t; shuffles : Z; draws : Z }.

(** What [draw] returns: one card for [times == 1], a list otherwise. *)
Inductive drawn : Type :=
| One (c : Card.t)
| Many (l : list Card.t).

Fixpoint shuffle_loop (n : nat) (self : t) (g : Rng) : t * Rng :=
  match n with
  | O => (self, g)
  | S n' =>
      let '(cards', g') := random_shuffle (cards self) g in
      shuffle_loop n' (mk cards' (shuffles self + 1) (draws self)) g'
  end.

Definition shuffle (self : t) (times : Z) (g : Rng) : t * Rng :=
  shuffle_loop (range_len times) self g.

(** The default deck of 52, before it is reversed. *)
Definition base_order : list Card.t :=
  flat_map (fun suit => (fun value => Card.mk value suit) <$> Card.Values.all)
           Card.Suits.all.

(** [Deck(cards, shuffle)]: an absent or empty [cards] gives the default
    deck. *)
Definition init (cards : option (list Card.t)) (shuffle : bool) (g : Rng)
  : t * Rng :=
  let cards' :=
    match cards with
    | Some (c :: l) => c :: l
    | _ => reverse base_order
    end in
  let self := mk cards' 0 0 in
  if shuffle then Deck.shuffle self 1 g else (self, g).

Definition contains (self : t) (item : Card.t) : bool :=
  existsb (fun c => Card.eqb item c) (cards self).

Definition top (self : t) : result Card.t := py_last (cards self).

Definition bottom (self : t) : result Card.t := py_first (cards self).

Definition cards_left (self : t) : Z := Z.of_nat (length (cards self)).

(** The loop of [draw]: each round counts the draw and then pops. *)
Fixpoint draw_loop (n : nat) (self : t) (acc : list Card.t)
  : t * result (list Card.t) :=
  match n with
  | O => (self, Ok acc)
  | S n' =>
      let self1 := mk (cards self) (shuffles self) (draws self + 1) in
      match py_pop (cards self1) with
      | Raise e => (self1, Raise e)
      | Ok (c, rest) =>
          draw_loop n' (mk rest (shuffles self1) (draws self1)) (acc ++ [c])
      end
  end.

Definition draw (self : t) (times : Z) : t * result drawn :=
  if times =? 1 then
    let self1 := mk (cards self) (shuffles self) (draws self + 1) in
    match py_pop (cards self1) with
    | Raise e => (self1, Raise e)
    | Ok (c, rest) => (mk rest (shuffles self1) (draws self1), Ok (One c))
    end
  else
    let '(self', r) := draw_loop (range_len times) self [] in
    (self', do l <- r; Ok (Many l)).

Definition draw_hand (self : t) (size : Z) : t * result Hand.t :=
  let '(self', r) := draw self size in
  (self',
   do cards <- r;
   Ok (Hand.init match cards with Many l => l | One c => [c] end)).

End Deck.

Module EuchreDeck.
Definition init (g : Rng) : Deck.t * Rng :=
  let values :=
    filter (fun x => Value.value x >= 9 \/ Value.value x = 1)
           Card.Values.all in
  let cards :=
    flat_map (fun suit => (fun value => Card.mk value suit) <$> values)
             Card.Suits.all in
  Deck.init (Some (reverse cards)) true g.
End EuchreDeck.

(** * Vocabulary of the properties *)

Local Close Scope string_scope.

(** Whether a call raised. *)
Definition raised {A} (r : result A) : bool :=
  match r with
  | Raise _ => true
  | Ok _ => false
  end.

(** A card's value strength, as the comparisons read it. *)
Definition strength (c : Card.t) : Z := Value.value (Card.value c).

(** The calls a client makes on a deck after constructing it. A call that
    raises leaves the deck as the exception found it, and the client may
    go on using it. *)
Inductive op : Type :=
| Shuffle (times : Z)
| Draw (times : Z)
| DrawHand (size : Z).

Definition step (o : op) (st : Deck.t * Rng) : Deck.t * Rng * bool :=
  match o with
  | Shuffle times => (Deck.shuffle st.1 times st.2, false)
  | Draw times => let '(d, r) := Deck.draw st.1 times in (d, st.2, raised r)
  | DrawHand n => let '(d, r) := Deck.draw_hand st.1 n in (d, st.2, raised r)
  end.

(** The deck after a sequence of calls, and how many of them raised. *)
Fixpoint run (ops : list op) (st : Deck.t * Rng) : Deck.t * Rng * nat :=
  match ops with
  | [] => (st, O)
  | o :: ops' =>
      let '(st', b) := step o st in
      let '(st'', n) := run ops' st' in
      (st'', ((if b then 1 else 0) + n)%nat)
  end.

(** A random source whose every answer is 0. *)
Definition rng_zero : Rng := mkRng (fun _ => O) O.

Definition ace_of_spades : Card.t := Card.mk Card.Values.ACE Card.Suits.SPADES.
Definition two_of_spades : Card.t := Card.mk Card.Values.TWO Card.Suits.SPADES.
Definition king_of_hearts : Card.t := Card.mk Card.Values.KING Card.Suits.HEARTS.

(** How many cards of a list equal a given card, by [Card.__eq__]. *)
Definition occurrences (c : Card.t) (l : list Card.t) : nat :=
  length (List.filter (Card.eqb c) l).

(** Every (Suit, Value) pair occurs exactly once. *)
Definition each_pair_once (l : list Card.t) : Prop :=
  Forall (fun s =>
    Forall (fun v => occurrences (Card.mk v s) l = 1%nat) Card.Values.all)
    Card.Suits.all.

(** The two readings of a value in a straight: as it is, with the ace 1,
    and with every ace taken as 14. *)
Definition ace_low (v : Z) : Z := v.
Definition ace_high (v : Z) : Z := if decide (v = 1) then 14 else v.

(** The number of distinct values in a list. *)
Definition distinct_count (vs : list Z) : nat := length (remove_dups vs).

(** Under a reading of the values, the cards' values have
    [max - min = size - 1] and as many distinct values as there are cards. *)
Definition contiguous_run (reading : Z -> Z) (cards : list Card.t) : Prop :=
  let vs := (fun c => reading (strength c)) <$> cards in
  exists lo hi,
    lo ∈ vs /\ hi ∈ vs /\ (forall v, v ∈ vs -> lo <= v <= hi)
    /\ hi - lo = Z.of_nat (length cards) - 1
    /\ distinct_count vs = length cards.

(** The multiplicity of a value in a list of values, the multiplicities of
    its distinct values, and these sorted in descending order: the groups
    of the multiplicity checks. *)
Definition multiplicity (v : Z) (vs : list Z) : Z :=
  Z.of_nat (length (filter (eq v) vs)).

Definition multiplicities (vs : list Z) : list Z :=
  (fun v => multiplicity v vs) <$> remove_dups vs.

Definition desc : relation Z := fun a b => b <= a.

#[global] Instance desc_dec : RelDecision desc := fun a b => Z_le_dec b a.

Definition groups (cards : list Card.t) : list Z :=
  merge_sort desc (multiplicities (strength <$> cards)).

(** The checks of [rank] in the order it tries them, each with the rank it
    answers; the high card is what is left. *)
Definition categories : list ((Hand.t -> result bool) * Rank.t) :=
  [(Hand.is_straight_flush, Hand.Ranks.STRAIGHT_FLUSH);
   (Hand.is_four_of_a_kind, Hand.Ranks.FOUR_OF_A_KIND);
   (Hand.is_full_house, Hand.Ranks.FULL_HOUSE);
   (Hand.is_flush, Hand.Ranks.FLUSH);
   (Hand.is_straight, Hand.Ranks.STRAIGHT);
   (Hand.is_three_of_a_kind, Hand.Ranks.THREE_OF_A_KIND);
   (Hand.is_two_pair, Hand.Ranks.TWO_PAIR);
   (Hand.is_one_pair, Hand.Ranks.PAIR);
   (fun _ => Ok true, Hand.Ranks.HIGH_CARD)].

(** [r] is the rank of the first category of the list whose check holds of
    the hand: the checks before it all answer no. *)
Definition first_match (h : Hand.t) (r : Rank.t) : Prop :=
  exists pre chk post,
    categories = pre ++ (chk, r) :: post
    /\ chk h = Ok true
    /\ Forall (fun p => p.1 h = Ok false) pre.

(** The two straights with an ace, in the suits of the specification's
    examples. *)
Definition wheel : list Card.t :=
  [Card.mk Card.Values.ACE Card.Suits.SPADES;
   Card.mk Card.Values.TWO Card.Suits.CLUBS;
   Card.mk Card.Values.THREE Card.Suits.DIAMONDS;
   Card.mk Card.Values.FOUR Card.Suits.HEARTS;
   Card.mk Card.Values.FIVE Card.Suits.SPADES].

Definition broadway : list Card.t :=
  [Card.mk Card.Values.TEN Card.Suits.SPADES;
   Card.mk Card.Values.JACK Card.Suits.CLUBS;
   Card.mk Card.Values.QUEEN Card.Suits.DIAMONDS;
   Card.mk Card.Values.KING Card.Suits.HEARTS;
   Card.mk Card.Values.ACE Card.Suits.SPADES].

(** A hand of seven cards: three sevens, two kings, a two and a nine. *)
Definition sevens_full_of_kings : list Card.t :=
  [Card.mk Card.Values.SEVEN Card.Suits.SPADES;
   Card.mk Card.Values.KING Card.Suits.CLUBS;
   Card.mk Card.Values.SEVEN Card.Suits.DIAMONDS;
   Card.mk Card.Values.TWO Card.Suits.HEARTS;
   Card.mk Card.Values.KING Card.Suits.SPADES;
   Card.mk Card.Values.SEVEN Card.Suits.HEARTS;
   Card.mk Card.Values.NINE Card.Suits.CLUBS].

(** Three threes and two sevens. *)
Definition threes_full_of_sevens : list Card.t :=
  [Card.mk Card.Values.THREE Card.Suits.SPADES;
   Card.mk Card.Values.THREE Card.Suits.CLUBS;
   Card.mk Card.Values.THREE Card.Suits.DIAMONDS;
   Card.mk Card.Values.SEVEN Card.Suits.HEARTS;
   Card.mk Card.Values.SEVEN Card.Suits.SPADES].

(** The display form of a card with the suit's letter code in place of its
    glyph: the value code followed by the suit code. *)
Definition code (c : Card.t) : string :=
  (Value.char (Card.value c) ++ Suit.char (Card.suit c))%string.

(** The cards of the standard deck: a value of [Values] with a suit of
    [Suits]. *)
Definition valid_card (c : Card.t) : Prop :=
  Card.value c ∈ Card.Values.all /\ Card.suit c ∈ Card.Suits.all.

(** The cards of what [draw] returns, as [draw_hand] reads them. *)
Definition drawn_cards (x : Deck.drawn) : list Card.t :=
  match x with
  | Deck.Many l => l
  | Deck.One c => [c]
  end.

(** The text of a hand: the codes of its cards, separated by a comma and a
    space. *)
Fixpoint hand_text (cards : list Card.t) : string :=
  match cards with
  | [] => EmptyString
  | c :: cards' =>
      match cards' with
      | [] => code c
      | _ :: _ => (code c ++ ", " ++ hand_text cards')%string
      end
  end.

(** The two, the nine and the king of spades. *)
Definition spade_flush : list Card.t :=
  [Card.mk Card.Values.TWO Card.Suits.SPADES;
   Card.mk Card.Values.NINE Card.Suits.SPADES;
   Card.mk Card.Values.KING Card.Suits.SPADES].

(** * Properties *)

(** ** Results and built-ins *)

Lemma py_pop_nil {A} : py_pop (@nil A) = Raise IndexError.
Proof. reflexivity. Qed.

Lemma py_pop_snoc {A} (l : list A) (x : A) : py_pop (l ++ [x]) = Ok (x, l).
Proof. unfold py_pop. by rewrite last_snoc, removelast_last. Qed.

Lemma range_len_nonpos (n : Z) : n <= 0 -> range_len n = O.
Proof. unfold range_len. lia. Qed.

(** ** Equality of suits, values and cards *)

Lemma Suit_eqb_eq (a b : Suit.t) : Suit.eqb a b = true <-> a = b.
Proof.
  unfold Suit.eqb. rewrite !andb_true_iff, !bool_decide_eq_true.
  destruct a, b; simpl. split.
  - intros [[[[[-> ->] ->] ->] ->] ->]. reflexivity.
  - intros [= -> -> -> -> -> ->]. repeat split.
Qed.

Lemma Value_eqb_eq (a b : Value.t) : Value.eqb a b = true <-> a = b.
Proof.
  unfold Value.eqb. rewrite !andb_true_iff, !bool_decide_eq_true.
  destruct a, b; simpl. split.
  - intros [[-> ->] ->]. reflexivity.
  - intros [= -> -> ->]. repeat split.
Qed.

Lemma Card_eqb_eq (a b : Card.t) : Card.eqb a b = true <-> a = b.
Proof.
  unfold Card.eqb. rewrite andb_true_iff, Suit_eqb_eq, Value_eqb_eq.
  destruct a, b; simpl. split.
  - intros [-> ->]. reflexivity.
  - intros [= -> ->]. split; reflexivity.
Qed.

Lemma Card_eqb_refl (a : Card.t) : Card.eqb a a = true.
Proof. by apply Card_eqb_eq. Qed.

(** ** Card comparisons *)

(** C7, as the claim states it, fails on the five of spades and the five
    of hearts: their value strengths are equal, yet [<=] and [>=] answer
    no, since [__le__] is [self < other or self == other] and [==] also
    compares the suits. *)
Lemma le_equal_value_other_suit :
  let a := Card.mk Card.Values.FIVE Card.Suits.SPADES in
  let b := Card.mk Card.Values.FIVE Card.Suits.HEARTS in
  strength a <= strength b /\ Card.le a b = false /\ Card.ge a b = false.
Proof. vm_compute. repeat split; discriminate. Qed.

(** C7 (amended): [<] and [>] compare value strength only, whatever the
    suits; [a <= b] holds exactly when [a]'s strength is strictly below
    [b]'s or the two cards agree in value and suit, and [>=] likewise with
    strictly above; [==] holds exactly when value and suit both match. *)
Theorem card_comparisons (a b : Card.t) :
  (Card.lt a b = true <-> strength a < strength b)
  /\ (Card.gt a b = true <-> strength a > strength b)
  /\ (Card.le a b = true <-> strength a < strength b \/ a = b)
  /\ (Card.ge a b = true <-> strength a > strength b \/ a = b)
  /\ (Card.eqb a b = true <->
      Card.value a = Card.value b /\ Card.suit a = Card.suit b).
Proof.
  unfold Card.le, Card.ge, Card.lt, Card.gt, strength.
  rewrite !orb_true_iff, !Card_eqb_eq, Z.ltb_lt, Z.gtb_gt.
  repeat split; try tauto; try congruence.
  destruct a, b; simpl. by intros [-> ->].
Qed.

(** ** Deck: draw *)

Section DrawLoop.
Variables (sh : Z).

(** With enough cards the loop pops [n] cards off the tail, last first. *)
Lemma draw_loop_ok (n : nat) : forall (cs : list Card.t) (dr : Z) acc,
  (n <= length cs)%nat ->
  Deck.draw_loop n (Deck.mk cs sh dr) acc
  = (Deck.mk (take (length cs - n) cs) sh (dr + Z.of_nat n),
     Ok (acc ++ reverse (drop (length cs - n) cs))).
Proof.
  induction n as [|n IH]; intros cs dr acc Hn; simpl.
  - rewrite Nat.sub_0_r, firstn_all, drop_all, app_nil_r. do 2 f_equal. lia.
  - destruct cs as [|x cs _] using rev_ind; [simpl in Hn; lia|].
    rewrite py_pop_snoc. rewrite length_app in *. simpl in *.
    rewrite IH by lia.
    replace (length cs + 1 - S n)%nat with (length cs - n)%nat by lia.
    rewrite take_app_le, drop_app_le by lia.
    rewrite reverse_app, reverse_singleton, <- app_assoc. simpl.
    do 2 f_equal. lia.
Qed.

(** Asked for more cards than there are, the loop pops every card, counts
    one more draw and raises from the pop that finds the list empty. *)
Lemma draw_loop_underflow (n : nat) : forall (cs : list Card.t) (dr : Z) acc,
  (length cs < n)%nat ->
  Deck.draw_loop n (Deck.mk cs sh dr) acc
  = (Deck.mk [] sh (dr + Z.of_nat (length cs) + 1), Raise IndexError).
Proof.
  induction n as [|n IH]; intros cs dr acc Hn; [lia|]. simpl.
  destruct cs as [|x cs _] using rev_ind.
  - rewrite py_pop_nil. simpl. do 2 f_equal. lia.
  - rewrite py_pop_snoc. rewrite length_app in *. simpl in *.
    rewrite IH by lia. do 2 f_equal. lia.
Qed.

End DrawLoop.

(** A draw either succeeds and keeps [draws + cards_left], or raises and
    leaves it one higher; the shuffle count is untouched. *)
Lemma draw_balance (d : Deck.t) (times : Z) :
  let '(d', r) := Deck.draw d times in
  Deck.draws d' + Deck.cards_left d'
  = Deck.draws d + Deck.cards_left d + (if raised r then 1 else 0).
Proof.
  destruct d as [cs sh dr]. unfold Deck.draw, Deck.cards_left. simpl.
  destruct (times =? 1).
  - destruct cs as [|x cs _] using rev_ind.
    + rewrite py_pop_nil. simpl. lia.
    + rewrite py_pop_snoc. simpl. rewrite length_app. simpl. lia.
  - destruct (decide (range_len times <= length cs)%nat) as [Hle|Hgt].
    + rewrite draw_loop_ok by done. simpl. rewrite length_take. lia.
    + rewrite draw_loop_underflow by lia. simpl. lia.
Qed.

(** ** Deck: shuffle *)

Lemma swap_Permutation {A} (x : list A) (i j : nat) : swap x i j ≡ₚ x.
Proof.
  unfold swap. destruct (x !! i) eqn:Hi, (x !! j) eqn:Hj; try done.
  by apply Permutation_insert_swap.
Qed.

Lemma shuffle_down_Permutation {A} (i : nat) : forall (x : list A) (g : Rng),
  (shuffle_down i x g).1 ≡ₚ x.
Proof.
  induction i as [|i IH]; intros x g; [done|]. simpl.
  rewrite IH. apply swap_Permutation.
Qed.

Lemma random_shuffle_Permutation {A} (x : list A) (g : Rng) :
  (random_shuffle x g).1 ≡ₚ x.
Proof. apply shuffle_down_Permutation. Qed.

Lemma shuffle_loop_spec (n : nat) : forall (d : Deck.t) (g : Rng),
  let d' := (Deck.shuffle_loop n d g).1 in
  Deck.cards d' ≡ₚ Deck.cards d
  /\ Deck.draws d' = Deck.draws d
  /\ Deck.shuffles d' = Deck.shuffles d + Z.of_nat n.
Proof.
  induction n as [|n IH]; intros d g; simpl.
  - repeat split; [done|lia].
  - pose proof (random_shuffle_Permutation (Deck.cards d) g) as Hp.
    destruct (random_shuffle (Deck.cards d) g) as [cs g']. simpl in Hp.
    destruct (IH (Deck.mk cs (Deck.shuffles d + 1) (Deck.draws d)) g')
      as (H1 & H2 & H3). simpl in *.
    repeat split; [by rewrite H1|done|lia].
Qed.

Lemma shuffle_cards_left (d : Deck.t) (times : Z) (g : Rng) :
  Deck.cards_left (Deck.shuffle d times g).1 = Deck.cards_left d.
Proof.
  unfold Deck.shuffle, Deck.cards_left.
  destruct (shuffle_loop_spec (range_len times) d g) as (H & _ & _).
  by rewrite H.
Qed.

Lemma shuffle_draws (d : Deck.t) (times : Z) (g : Rng) :
  Deck.draws (Deck.shuffle d times g).1 = Deck.draws d.
Proof.
  unfold Deck.shuffle.
  by destruct (shuffle_loop_spec (range_len times) d g) as (_ & H & _).
Qed.

(** ** Deck: claims on draw *)

(** C9: a draw of zero or of a negative number of cards returns the empty
    list without an error and leaves the deck as it was, cards and draw
    counter included. *)
Theorem draw_nonpositive (d : Deck.t) (times : Z) :
  times <= 0 -> Deck.draw d times = (d, Ok (Deck.Many [])).
Proof.
  intros Ht. unfold Deck.draw.
  destruct (Z.eqb_spec times 1) as [->|_]; [lia|].
  rewrite range_len_nonpos by done. by destruct d.
Qed.

Lemma draw_nonpositive_witness :
  Deck.draw (Deck.mk [two_of_spades; ace_of_spades] 0 0) (-3)
  = (Deck.mk [two_of_spades; ace_of_spades] 0 0, Ok (Deck.Many [])).
Proof. apply draw_nonpositive. lia. Defined.

(** C1, as the claim states it, fails: asked for three cards, a deck of two
    raises, but only after both cards have been popped; [cards_left] is 0
    afterwards, not 2, and three draws have been counted. *)
Lemma draw_underflow_empties_deck :
  let d := Deck.mk [two_of_spades; ace_of_spades] 0 0 in
  Deck.cards_left d = 2
  /\ Deck.draw d 3 = (Deck.mk [] 0 3, Raise IndexError)
  /\ Deck.cards_left (Deck.draw d 3).1 <> Deck.cards_left d.
Proof. vm_compute. repeat split; discriminate. Qed.

(** C1 (amended): a draw of more cards than the [N] that remain raises the
    underflow error and returns no cards, and it leaves the deck empty with
    the draw counter advanced by [N + 1]. *)
Theorem draw_underflow (d : Deck.t) (times : Z) :
  Deck.cards_left d < times ->
  Deck.draw d times
  = (Deck.mk [] (Deck.shuffles d) (Deck.draws d + Deck.cards_left d + 1),
     Raise IndexError).
Proof.
  destruct d as [cs sh dr]. unfold Deck.cards_left, Deck.draw. simpl.
  intros Ht. destruct (Z.eqb_spec times 1) as [->|Hne].
  - destruct cs as [|c cs]; [|cbn [length] in Ht; lia].
    simpl. do 2 f_equal. lia.
  - rewrite draw_loop_underflow; [done|]. unfold range_len. lia.
Qed.

Lemma draw_underflow_witness :
  Deck.draw (Deck.mk [two_of_spades; ace_of_spades] 0 0) 3
  = (Deck.mk [] 0 3, Raise IndexError).
Proof.
  apply (draw_underflow (Deck.mk [two_of_spades; ace_of_spades] 0 0) 3).
  vm_compute. reflexivity.
Defined.

(** ** Deck: the counters over a lifetime *)

Lemma draw_hand_raised (d : Deck.t) (n : Z) :
  (Deck.draw_hand d n).1 = (Deck.draw d n).1
  /\ raised (Deck.draw_hand d n).2 = raised (Deck.draw d n).2.
Proof.
  unfold Deck.draw_hand. by destruct (Deck.draw d n) as [d' [l|e]]; simpl.
Qed.

Lemma step_balance (o : op) (st : Deck.t * Rng) :
  let '(st', b) := step o st in
  Deck.draws st'.1 + Deck.cards_left st'.1
  = Deck.draws st.1 + Deck.cards_left st.1 + (if b then 1 else 0).
Proof.
  destruct st as [d g], o as [times|times|n]; simpl.
  - rewrite shuffle_draws, shuffle_cards_left. lia.
  - pose proof (draw_balance d times) as H.
    by destruct (Deck.draw d times) as [d' r].
  - pose proof (draw_balance d n) as H.
    destruct (draw_hand_raised d n) as [H1 H2].
    destruct (Deck.draw_hand d n) as [d' r], (Deck.draw d n) as [d'' r''].
    simpl in *. by rewrite H1, H2.
Qed.

(** C2, as the claim states it, fails: a deck built from one card and
    asked for two has afterwards no card left and two draws counted, which
    sum to 2 and not to the 1 it was constructed with. *)
Lemma draws_plus_left_after_underflow :
  let st0 := Deck.init (Some [ace_of_spades]) false rng_zero in
  let d := (run [Draw 2] st0).1.1 in
  Deck.cards_left st0.1 = 1
  /\ Deck.draws d + Deck.cards_left d = 2.
Proof. vm_compute. split; reflexivity. Qed.

(** C2 (amended): after any sequence of shuffles and draws on a deck,
    [draws + cards_left] equals the number of cards the deck was
    constructed with plus the number of draw calls that raised underflow;
    so the two are equal as long as no draw has raised. *)
Theorem draws_plus_cards_left (cards : option (list Card.t)) (shuffle : bool)
    (g : Rng) (ops : list op) :
  let st0 := Deck.init cards shuffle g in
  let d := (run ops st0).1.1 in
  let failures := (run ops st0).2 in
  Deck.draws d + Deck.cards_left d
  = Deck.cards_left st0.1 + Z.of_nat failures.
Proof.
  assert (Hinit : Deck.draws (Deck.init cards shuffle g).1 = 0).
  { unfold Deck.init. destruct shuffle; [|done]. by rewrite shuffle_draws. }
  simpl. revert Hinit. generalize (Deck.init cards shuffle g) as st0.
  intros st0 H0.
  enough (Hgen : forall st,
    Deck.draws (run ops st).1.1 + Deck.cards_left (run ops st).1.1
    = Deck.draws st.1 + Deck.cards_left st.1 + Z.of_nat (run ops st).2).
  { rewrite Hgen, H0. lia. }
  induction ops as [|o ops IH]; intros st; simpl; [lia|].
  pose proof (step_balance o st) as Hs.
  destruct (step o st) as [st' b]. specialize (IH st').
  destruct (run ops st') as [st'' n]. simpl in *.
  destruct b; lia.
Qed.

(** ** Deck: the default construction *)

Lemma Suits_all_eq :
  Card.Suits.all
  = [Card.Suits.SPADES; Card.Suits.CLUBS; Card.Suits.DIAMONDS;
     Card.Suits.HEARTS].
Proof. reflexivity. Qed.

Lemma Values_all_eq :
  Card.Values.all
  = [Card.Values.ACE; Card.Values.TWO; Card.Values.THREE; Card.Values.FOUR;
     Card.Values.FIVE; Card.Values.SIX; Card.Values.SEVEN; Card.Values.EIGHT;
     Card.Values.NINE; Card.Values.TEN; Card.Values.JACK; Card.Values.QUEEN;
     Card.Values.KING].
Proof. reflexivity. Qed.

Lemma occurrences_Permutation (c : Card.t) (l1 l2 : list Card.t) :
  l1 ≡ₚ l2 -> occurrences c l1 = occurrences c l2.
Proof.
  unfold occurrences. induction 1 as [|x l1 l2 _ IH|x y l|l1 l2 l3 _ IH1 _ IH2];
    simpl; [done| | |congruence].
  - destruct (Card.eqb c x); simpl; congruence.
  - by destruct (Card.eqb c x), (Card.eqb c y).
Qed.

Lemma each_pair_once_Permutation (l1 l2 : list Card.t) :
  l1 ≡ₚ l2 -> each_pair_once l1 -> each_pair_once l2.
Proof.
  intros Hp H. unfold each_pair_once in *.
  eapply Forall_impl; [exact H|]. intros s Hs.
  eapply Forall_impl; [exact Hs|]. intros v. simpl.
  by rewrite (occurrences_Permutation _ _ _ Hp).
Qed.

Lemma base_order_each_pair_once : each_pair_once Deck.base_order.
Proof.
  unfold each_pair_once. rewrite Suits_all_eq, Values_all_eq.
  repeat constructor; vm_compute; reflexivity.
Qed.

Lemma init_default_cards (shuffle : bool) (g : Rng) :
  Deck.cards (Deck.init None shuffle g).1 ≡ₚ Deck.base_order.
Proof.
  unfold Deck.init. destruct shuffle.
  - unfold Deck.shuffle.
    destruct (shuffle_loop_spec (range_len 1)
                (Deck.mk (reverse Deck.base_order) 0 0) g) as (H & _ & _).
    rewrite H. cbn [Deck.cards]. apply reverse_Permutation.
  - cbn [fst Deck.cards]. apply reverse_Permutation.
Qed.

(** C3, as the claim states it, fails: the constructor shuffles the default
    deck unless told not to, and with a random source that always answers
    0 the first draw is the king of hearts, the last card of the base
    order, not its first, the ace of spades. *)
Lemma default_deck_is_shuffled :
  let d := (Deck.init None true rng_zero).1 in
  head Deck.base_order = Some ace_of_spades
  /\ (Deck.draw d 1).2 = Ok (Deck.One king_of_hearts)
  /\ king_of_hearts <> ace_of_spades
  /\ Deck.cards d <> reverse Deck.base_order.
Proof.
  split; [reflexivity|]. split; [vm_compute; reflexivity|].
  split; [discriminate|].
  intros H. apply (f_equal last) in H. vm_compute in H. discriminate.
Qed.

(** C3 (amended): a deck constructed with the default enumeration holds 52
    cards, each (Suit, Value) pair exactly once, whether or not the
    constructor shuffles it. When it is constructed with [shuffle=False],
    its cards are in the reverse of the base Suit-by-Value order, and the
    first draw returns the first card of that base order, the ace of
    spades. *)
Theorem default_deck (shuffle : bool) (g : Rng) :
  let d := (Deck.init None shuffle g).1 in
  let unshuffled := (Deck.init None false g).1 in
  Deck.cards_left d = 52
  /\ each_pair_once (Deck.cards d)
  /\ Deck.cards unshuffled = reverse Deck.base_order
  /\ head Deck.base_order = Some ace_of_spades
  /\ (Deck.draw unshuffled 1).2 = Ok (Deck.One ace_of_spades).
Proof.
  intros d unshuffled.
  pose proof (init_default_cards shuffle g) as Hp. fold d in Hp.
  split; [|split; [|split; [|split]]].
  - unfold Deck.cards_left. rewrite Hp. reflexivity.
  - eapply each_pair_once_Permutation; [symmetry; exact Hp|].
    apply base_order_each_pair_once.
  - reflexivity.
  - reflexivity.
  - vm_compute. reflexivity.
Qed.

(** ** Sorting *)

Section Sorted.
Context {A : Type} (lt : A -> A -> bool).

Lemma py_insert_Permutation (x : A) (l : list A) : py_insert lt x l ≡ₚ x :: l.
Proof.
  induction l as [|y l IH]; simpl; [done|].
  destruct (lt y x); [|done]. rewrite IH. apply Permutation_swap.
Qed.

Lemma py_sorted_Permutation (l : list A) : py_sorted lt l ≡ₚ l.
Proof.
  induction l as [|x l IH]; simpl; [done|].
  by rewrite py_insert_Permutation, IH.
Qed.

Lemma py_sorted_length (l : list A) : length (py_sorted lt l) = length l.
Proof. by rewrite py_sorted_Permutation. Qed.

Lemma py_sorted_reverse_Permutation (l : list A) : py_sorted_reverse lt l ≡ₚ l.
Proof.
  unfold py_sorted_reverse.
  by rewrite reverse_Permutation, py_sorted_Permutation, reverse_Permutation.
Qed.

End Sorted.

(** ** Sets of integers: max, min and size *)

Lemma foldr_max_spec (x : Z) (l : list Z) :
  foldr Z.max x l ∈ x :: l /\ forall y, y ∈ x :: l -> y <= foldr Z.max x l.
Proof.
  induction l as [|z l [IHin IHle]]; simpl.
  - split; [by left|]. intros y ->%list_elem_of_singleton. lia.
  - split.
    + destruct (Z.max_spec z (foldr Z.max x l)) as [[_ ->]|[_ ->]].
      * apply elem_of_cons in IHin as [->|Hin]; [by left|].
        by do 2 right.
      * right; by left.
    + intros y [->|[->|Hy]%elem_of_cons]%elem_of_cons.
      * specialize (IHle x (ltac:(by left))). lia.
      * lia.
      * specialize (IHle y (ltac:(by right))). lia.
Qed.

Lemma foldr_min_spec (x : Z) (l : list Z) :
  foldr Z.min x l ∈ x :: l /\ forall y, y ∈ x :: l -> foldr Z.min x l <= y.
Proof.
  induction l as [|z l [IHin IHle]]; simpl.
  - split; [by left|]. intros y ->%list_elem_of_singleton. lia.
  - split.
    + destruct (Z.min_spec z (foldr Z.min x l)) as [[_ ->]|[_ ->]].
      * right; by left.
      * apply elem_of_cons in IHin as [->|Hin]; [by left|].
        by do 2 right.
    + intros y [->|[->|Hy]%elem_of_cons]%elem_of_cons.
      * specialize (IHle x (ltac:(by left))). lia.
      * lia.
      * specialize (IHle y (ltac:(by right))). lia.
Qed.

Lemma py_max_spec (s : gset Z) :
  s ≠ ∅ ->
  exists m, py_max s = Ok m /\ m ∈ s /\ forall y, y ∈ s -> y <= m.
Proof.
  intros Hne. unfold py_max.
  destruct (elements s) as [|x l] eqn:E.
  - apply elements_empty_iff in E. by apply leibniz_equiv in E.
  - destruct (foldr_max_spec x l) as [Hin Hle].
    exists (foldr Z.max x l). rewrite <- E in Hin, Hle.
    split; [done|]. split; [by apply elem_of_elements|].
    intros y Hy. by apply Hle, elem_of_elements.
Qed.

Lemma py_min_spec (s : gset Z) :
  s ≠ ∅ ->
  exists m, py_min s = Ok m /\ m ∈ s /\ forall y, y ∈ s -> m <= y.
Proof.
  intros Hne. unfold py_min.
  destruct (elements s) as [|x l] eqn:E.
  - apply elements_empty_iff in E. by apply leibniz_equiv in E.
  - destruct (foldr_min_spec x l) as [Hin Hle].
    exists (foldr Z.min x l). rewrite <- E in Hin, Hle.
    split; [done|]. split; [by apply elem_of_elements|].
    intros y Hy. by apply Hle, elem_of_elements.
Qed.

Lemma size_list_to_set_distinct (vs : list Z) :
  size (list_to_set vs : gset Z) = distinct_count vs.
Proof.
  unfold distinct_count.
  rewrite <- (size_list_to_set (C:=gset Z)) by apply NoDup_remove_dups.
  f_equal. apply set_eq. intros x.
  by rewrite !elem_of_list_to_set, elem_of_remove_dups.
Qed.

Lemma list_to_set_Permutation (l1 l2 : list Z) :
  l1 ≡ₚ l2 -> (list_to_set l1 : gset Z) = list_to_set l2.
Proof.
  intros Hp. apply set_eq. intros x.
  by rewrite !elem_of_list_to_set, Hp.
Qed.

(** ** Hand: straights *)

Lemma init_cards (cards : list Card.t) :
  Hand.cards (Hand.init cards) = py_sorted Card.lt cards.
Proof. reflexivity. Qed.

Lemma init_size (cards : list Card.t) :
  Hand.size (Hand.init cards) = Z.of_nat (length cards).
Proof. unfold Hand.init. simpl. by rewrite py_sorted_length. Qed.

Lemma check_spec (h : Hand.t) (s : gset Z) :
  s ≠ ∅ ->
  exists b, Hand.check h s = Ok b
    /\ (b = true <->
        exists lo hi, lo ∈ s /\ hi ∈ s /\ (forall v, v ∈ s -> lo <= v <= hi)
          /\ hi - lo = Hand.size h - 1 /\ Z.of_nat (size s) = Hand.size h).
Proof.
  intros Hne.
  destruct (py_max_spec s Hne) as (hi & Emax & Hhi & Hmax).
  destruct (py_min_spec s Hne) as (lo & Emin & Hlo & Hmin).
  unfold Hand.check. rewrite Emax, Emin. simpl.
  eexists; split; [reflexivity|].
  rewrite andb_true_iff, !Z.eqb_eq. split.
  - intros [Hr Hs]. exists lo, hi. repeat split; auto.
  - intros (lo' & hi' & Hlo' & Hhi' & Hb & Hr & Hs).
    assert (lo' = lo) as ->.
    { pose proof (Hb lo Hlo). pose proof (Hmin lo' Hlo'). lia. }
    assert (hi' = hi) as ->.
    { pose proof (Hb hi Hhi). pose proof (Hmax hi' Hhi'). lia. }
    done.
Qed.

Lemma reading_set_nonempty (reading : Z -> Z) (cards : list Card.t) :
  cards ≠ [] ->
  (list_to_set ((fun c => reading (strength c)) <$> cards) : gset Z) ≠ ∅.
Proof.
  destruct cards as [|c cards]; [done|]. intros _ H.
  assert (Hin : reading (strength c) ∈ (∅ : gset Z)).
  { rewrite <- H. apply elem_of_list_to_set. by left. }
  by apply not_elem_of_empty in Hin.
Qed.

(** On the set of the cards' values under a reading, the test of
    [check] is the contiguous run of the vocabulary. *)
Lemma check_reading (reading : Z -> Z) (cards : list Card.t) :
  cards ≠ [] ->
  exists b,
    Hand.check (Hand.init cards)
      (list_to_set ((fun c => reading (strength c)) <$> cards)) = Ok b
    /\ (b = true <-> contiguous_run reading cards).
Proof.
  intros Hne.
  destruct (check_spec (Hand.init cards) _ (reading_set_nonempty reading _ Hne))
    as (b & Eb & Hb).
  exists b. split; [done|]. rewrite Hb. unfold contiguous_run.
  rewrite init_size, size_list_to_set_distinct.
  setoid_rewrite elem_of_list_to_set.
  split; intros (lo & hi & Hlo & Hhi & Hbd & Hr & Hs); exists lo, hi;
    repeat split; auto; try apply Hbd; auto; lia.
Qed.

Lemma low_ace_set (cards : list Card.t) :
  (list_to_set
     ((fun x => Value.value (Card.value x)) <$> Hand.cards (Hand.init cards))
   : gset Z)
  = list_to_set ((fun c => ace_low (strength c)) <$> cards).
Proof.
  apply list_to_set_Permutation. rewrite init_cards.
  by rewrite py_sorted_Permutation.
Qed.

Lemma high_ace_set (cards : list Card.t) :
  (list_to_set
     ((fun x => if negb (x =? 1) then x else 14)
        <$> ((fun x => Value.value (Card.value x))
               <$> Hand.cards (Hand.init cards)))
   : gset Z)
  = list_to_set ((fun c => ace_high (strength c)) <$> cards).
Proof.
  apply list_to_set_Permutation. rewrite init_cards.
  rewrite py_sorted_Permutation, <- list_fmap_compose.
  rewrite (list_fmap_ext _ (fun c => ace_high (strength c)) cards); [done|].
  intros _ c _. simpl. unfold ace_high, strength.
  destruct (Z.eqb_spec (Value.value (Card.value c)) 1), (decide _); done.
Qed.

Lemma is_straight_spec (cards : list Card.t) :
  cards ≠ [] ->
  exists b, Hand.is_straight (Hand.init cards) = Ok b
    /\ (b = true <->
        contiguous_run ace_low cards \/ contiguous_run ace_high cards).
Proof.
  intros Hne. unfold Hand.is_straight.
  rewrite low_ace_set, high_ace_set.
  destruct (check_reading ace_low cards Hne) as (b1 & E1 & H1).
  destruct (check_reading ace_high cards Hne) as (b2 & E2 & H2).
  rewrite E1, E2. exists (b1 || b2). split.
  - by destruct b1.
  - rewrite orb_true_iff. tauto.
Qed.

(** ** Counter *)

Lemma multiplicity_snoc (v k : Z) (l : list Z) :
  multiplicity v (l ++ [k])
  = multiplicity v l + (if decide (v = k) then 1 else 0).
Proof.
  unfold multiplicity. rewrite filter_app, length_app.
  rewrite filter_cons, filter_nil. destruct (decide (v = k)); simpl; lia.
Qed.

Lemma multiplicity_not_in (v : Z) (l : list Z) : v ∉ l -> multiplicity v l = 0.
Proof.
  unfold multiplicity. induction l as [|x l IH]; [done|].
  intros [Hne Hl]%not_elem_of_cons. rewrite filter_cons.
  destruct (decide (v = x)); [done|]. by apply IH.
Qed.

Lemma counter_add_keys (k k' : Z) (c : list (Z * Z)) :
  k' ∈ (counter_add k c).*1 <-> k' = k \/ k' ∈ c.*1.
Proof.
  induction c as [|[k0 n] c IH]; simpl.
  - rewrite list_elem_of_singleton, elem_of_nil. tauto.
  - destruct (Z.eqb_spec k k0) as [->|Hne]; simpl.
    + rewrite elem_of_cons. tauto.
    + rewrite !elem_of_cons, IH. tauto.
Qed.

Lemma counter_add_NoDup (k : Z) (c : list (Z * Z)) :
  NoDup c.*1 -> NoDup (counter_add k c).*1.
Proof.
  induction c as [|[k0 n] c IH]; simpl.
  - intros _. apply NoDup_singleton.
  - intros [Hk0 Hc]%NoDup_cons.
    destruct (Z.eqb_spec k k0) as [->|Hne]; simpl.
    + by apply NoDup_cons.
    + apply NoDup_cons. split; [|by apply IH].
      rewrite counter_add_keys. intros [?|?]; [congruence|done].
Qed.

Lemma counts_other_key (k : Z) (l : list Z) (c : list (Z * Z)) :
  k ∉ c.*1 ->
  Forall (fun p => p.2 = multiplicity p.1 l) c ->
  Forall (fun p => p.2 = multiplicity p.1 (l ++ [k])) c.
Proof.
  induction c as [|[k0 n] c IH]; simpl; [done|].
  intros [Hne Hk]%not_elem_of_cons [Hn Hc]%Forall_cons.
  constructor; [|by apply IH]. simpl in *.
  rewrite multiplicity_snoc, decide_False by done. lia.
Qed.

Lemma counter_add_counts (k : Z) (l : list Z) (c : list (Z * Z)) :
  NoDup c.*1 ->
  (k ∉ c.*1 -> multiplicity k l = 0) ->
  Forall (fun p => p.2 = multiplicity p.1 l) c ->
  Forall (fun p => p.2 = multiplicity p.1 (l ++ [k])) (counter_add k c).
Proof.
  induction c as [|[k0 n] c IH]; simpl; intros Hnd Hk Hc.
  - constructor; [|done]. simpl. rewrite multiplicity_snoc, Hk.
    + by rewrite decide_True.
    + apply not_elem_of_nil.
  - apply NoDup_cons in Hnd as [Hk0 Hnd].
    apply Forall_cons in Hc as [Hn Hc]. simpl in Hn.
    destruct (Z.eqb_spec k k0) as [->|Hne].
    + constructor.
      * simpl. rewrite multiplicity_snoc, decide_True by done. lia.
      * by apply counts_other_key.
    + constructor.
      * simpl. rewrite multiplicity_snoc, decide_False by done. lia.
      * apply IH; [done| |done]. intros Hin. apply Hk.
        rewrite not_elem_of_cons. by split.
Qed.

Lemma Counter_snoc (l : list Z) (k : Z) :
  Counter (l ++ [k]) = counter_add k (Counter l).
Proof. unfold Counter. by rewrite foldl_snoc. Qed.

(** The counter of a list has the distinct values of the list as its keys,
    each once, and each with its multiplicity. *)
Lemma Counter_spec (l : list Z) :
  NoDup (Counter l).*1
  /\ (forall k, k ∈ (Counter l).*1 <-> k ∈ l)
  /\ Forall (fun p => p.2 = multiplicity p.1 l) (Counter l).
Proof.
  induction l as [|k l (Hnd & Hkeys & Hc)] using rev_ind.
  - split; [constructor|]. split; [done|constructor].
  - rewrite Counter_snoc. split; [by apply counter_add_NoDup|]. split.
    + intros k'. rewrite counter_add_keys, elem_of_app, Hkeys.
      rewrite list_elem_of_singleton. tauto.
    + apply counter_add_counts; [done| |done].
      intros Hk. apply multiplicity_not_in. by rewrite <- Hkeys.
Qed.

Lemma Counter_values (l : list Z) :
  counter_values (Counter l) ≡ₚ multiplicities l.
Proof.
  destruct (Counter_spec l) as (Hnd & Hkeys & Hc).
  unfold counter_values, multiplicities.
  assert (E : (Counter l).*2 = (fun v => multiplicity v l) <$> (Counter l).*1).
  { clear Hnd Hkeys. revert Hc. generalize (Counter l) as c.
    induction 1 as [|[k n] c Hn _ IH]; [done|]. simpl in *. by f_equal. }
  rewrite E. apply fmap_Permutation, NoDup_Permutation.
  - done.
  - apply NoDup_remove_dups.
  - intros k. by rewrite Hkeys, elem_of_remove_dups.
Qed.

(** ** Descending order *)

#[local] Instance desc_total : Total desc.
Proof. intros a b. unfold desc. lia. Qed.

#[local] Instance desc_trans : Transitive desc.
Proof. intros a b c. unfold desc. lia. Qed.

#[local] Instance desc_antisymm : AntiSymm (=) desc.
Proof. intros a b. unfold desc. lia. Qed.

Lemma py_insert_Sorted (x : Z) (l : list Z) :
  Sorted Z.le l -> Sorted Z.le (py_insert Z.ltb x l).
Proof.
  induction 1 as [|y l Hs IH Hhd]; simpl; [by repeat constructor|].
  destruct (Z.ltb_spec y x) as [Hlt|Hge].
  - constructor; [done|].
    destruct l as [|z l]; simpl in *.
    + constructor. lia.
    + inversion Hhd; subst. destruct (z <? x); constructor; lia.
  - constructor; [by constructor|]. by constructor.
Qed.

Lemma py_sorted_Sorted (l : list Z) : Sorted Z.le (py_sorted Z.ltb l).
Proof.
  induction l as [|x l IH]; simpl; [constructor|].
  by apply py_insert_Sorted.
Qed.

Lemma py_sorted_reverse_Sorted (l : list Z) :
  Sorted desc (py_sorted_reverse Z.ltb l).
Proof. apply (Sorted_reverse Z.le), py_sorted_Sorted. Qed.

(** The list [_vals] of a hand is the groups of its cards. *)
Lemma vals_groups (cards : list Card.t) :
  Hand._vals (Hand.init cards) = groups cards.
Proof.
  unfold Hand._vals, groups. apply (Sorted_unique desc).
  - apply py_sorted_reverse_Sorted.
  - apply Sorted_merge_sort. apply _.
  - rewrite py_sorted_reverse_Permutation, merge_sort_Permutation.
    unfold Hand.init. cbn [Hand.value_counts].
    rewrite Counter_values. unfold multiplicities.
    assert (Hp : (fun x => Value.value (Card.value x)) <$> py_sorted Card.lt cards
                 ≡ₚ strength <$> cards).
    { by rewrite py_sorted_Permutation. }
    assert (Hm : forall v, multiplicity v
                   ((fun x => Value.value (Card.value x)) <$> py_sorted Card.lt cards)
                 = multiplicity v (strength <$> cards)).
    { intros v. unfold multiplicity. by rewrite Hp. }
    rewrite (list_fmap_ext _ (fun v => multiplicity v (strength <$> cards)))
      by (intros; apply Hm).
    apply fmap_Permutation, NoDup_Permutation; try apply NoDup_remove_dups.
    intros v. by rewrite !elem_of_remove_dups, Hp.
Qed.

Lemma groups_nonempty (cards : list Card.t) : cards ≠ [] -> groups cards ≠ [].
Proof.
  intros Hne Hg. apply (f_equal length) in Hg. revert Hg.
  unfold groups, multiplicities.
  rewrite merge_sort_Permutation, length_fmap. simpl.
  destruct cards as [|c cards]; [done|].
  assert (Hin : strength c ∈ remove_dups (strength <$> c :: cards)).
  { apply elem_of_remove_dups. by left. }
  destruct (remove_dups _); [by apply elem_of_nil in Hin|done].
Qed.

(** ** Hand: the claims on straights *)

(** C4: for a non-empty hand, [is_straight] returns, and returns true
    exactly when the values read with the ace as 1, or read with every ace
    as 14, have [max - min = size - 1] and as many distinct values as the
    hand has cards. The hands A,2,3,4,5 and 10,J,Q,K,A are straights
    whatever their suits, and with the suits of the examples their rank is
    the straight. *)
Theorem is_straight_two_readings :
  (forall cards : list Card.t, cards <> [] ->
     exists b, Hand.is_straight (Hand.init cards) = Ok b
       /\ (b = true <->
           contiguous_run ace_low cards \/ contiguous_run ace_high cards))
  /\ (forall s1 s2 s3 s4 s5 : Suit.t,
        Hand.is_straight
          (Hand.init [Card.mk Card.Values.ACE s1; Card.mk Card.Values.TWO s2;
                      Card.mk Card.Values.THREE s3; Card.mk Card.Values.FOUR s4;
                      Card.mk Card.Values.FIVE s5]) = Ok true
        /\ Hand.is_straight
             (Hand.init [Card.mk Card.Values.TEN s1; Card.mk Card.Values.JACK s2;
                         Card.mk Card.Values.QUEEN s3; Card.mk Card.Values.KING s4;
                         Card.mk Card.Values.ACE s5]) = Ok true)
  /\ Hand.rank (Hand.init wheel) = Ok Hand.Ranks.STRAIGHT
  /\ Hand.rank (Hand.init broadway) = Ok Hand.Ranks.STRAIGHT.
Proof.
  split; [exact is_straight_spec|]. split.
  - intros s1 s2 s3 s4 s5. split; vm_compute; reflexivity.
  - split; vm_compute; reflexivity.
Qed.

Lemma is_straight_two_readings_witness :
  exists b, Hand.is_straight (Hand.init wheel) = Ok b
    /\ (b = true <->
        contiguous_run ace_low wheel \/ contiguous_run ace_high wheel).
Proof.
  apply (proj1 is_straight_two_readings wheel). discriminate.
Defined.

(** ** Hand: the multiplicity checks *)

Lemma py_first_head {A} (l : list A) (x : A) : head l = Some x -> py_first l = Ok x.
Proof. unfold py_first. rewrite <- head_lookup. by intros ->. Qed.

Lemma head_eqb (g : list Z) (x n : Z) :
  head g = Some x -> (x =? n) = bool_decide (head g = Some n).
Proof.
  intros ->. destruct (Z.eqb_spec x n) as [->|Hne].
  - by rewrite bool_decide_eq_true_2.
  - rewrite bool_decide_eq_false_2; [done|]. by intros [= ?].
Qed.

Lemma largest_group_check (cards : list Card.t) (n : Z) :
  cards ≠ [] ->
  (do v <- py_first (Hand._vals (Hand.init cards)); Ok (v =? n))
  = Ok (bool_decide (head (groups cards) = Some n)).
Proof.
  intros Hne. rewrite vals_groups.
  destruct (groups cards) as [|x g] eqn:E; [by apply groups_nonempty in E|].
  rewrite (py_first_head _ x) by done. simpl. f_equal.
  by apply (head_eqb (x :: g)).
Qed.

(** C6: for a non-empty hand, with [groups] the multiplicities of the
    distinct card values sorted in descending order: four of a kind iff the
    largest group is 4; full house iff the two largest groups are exactly
    [3; 2]; three of a kind iff the largest group is 3; two pair iff the two
    largest groups are exactly [2; 2]; one pair iff the largest group is 2.
    The hand may have any size. *)
Theorem multiplicity_checks (cards : list Card.t) :
  cards <> [] ->
  let h := Hand.init cards in
  let g := groups cards in
  Sorted desc g
  /\ g ≡ₚ multiplicities (strength <$> cards)
  /\ Hand.is_four_of_a_kind h = Ok (bool_decide (head g = Some 4))
  /\ Hand.is_full_house h = Ok (bool_decide (take 2 g = [3; 2]))
  /\ Hand.is_three_of_a_kind h = Ok (bool_decide (head g = Some 3))
  /\ Hand.is_two_pair h = Ok (bool_decide (take 2 g = [2; 2]))
  /\ Hand.is_one_pair h = Ok (bool_decide (head g = Some 2)).
Proof.
  intros Hne h g. subst h g.
  split; [apply Sorted_merge_sort; apply _|].
  split; [apply merge_sort_Permutation|].
  unfold Hand.is_four_of_a_kind, Hand.is_three_of_a_kind, Hand.is_one_pair.
  rewrite !largest_group_check by done.
  unfold Hand.is_full_house, Hand.is_two_pair. rewrite vals_groups.
  done.
Qed.

Lemma multiplicity_checks_witness :
  groups sevens_full_of_kings = [3; 2; 1; 1]
  /\ Hand.is_full_house (Hand.init sevens_full_of_kings) = Ok true
  /\ Hand.is_two_pair (Hand.init sevens_full_of_kings) = Ok false.
Proof.
  assert (Hne : sevens_full_of_kings <> []) by discriminate.
  destruct (multiplicity_checks sevens_full_of_kings Hne)
    as (_ & _ & _ & Hfull & _ & Htwo & _).
  split; [vm_compute; reflexivity|]. split.
  - rewrite Hfull. vm_compute. reflexivity.
  - rewrite Htwo. vm_compute. reflexivity.
Defined.

(** ** Hand: rank *)

(** On a non-empty hand every check returns. *)
Lemma checks_total (cards : list Card.t) :
  cards ≠ [] ->
  let h := Hand.init cards in
  exists bf bs b4 bfh b3 b2p bp,
    Hand.is_flush h = Ok bf /\ Hand.is_straight h = Ok bs
    /\ Hand.is_straight_flush h = Ok (bf && bs)
    /\ Hand.is_four_of_a_kind h = Ok b4 /\ Hand.is_full_house h = Ok bfh
    /\ Hand.is_three_of_a_kind h = Ok b3 /\ Hand.is_two_pair h = Ok b2p
    /\ Hand.is_one_pair h = Ok bp.
Proof.
  intros Hne h. destruct (is_straight_spec cards Hne) as (bs & Es & _).
  assert (Ef : exists bf, Hand.is_flush h = Ok bf) by (by eexists).
  destruct Ef as [bf Ef]. fold h in Es.
  exists bf, bs. do 5 eexists.
  split; [done|]. split; [done|]. split.
  { unfold Hand.is_straight_flush. rewrite Ef, Es. by destruct bf. }
  unfold Hand.is_four_of_a_kind, Hand.is_three_of_a_kind, Hand.is_one_pair.
  subst h. rewrite !largest_group_check by done.
  repeat split; reflexivity.
Qed.

Ltac first_match_at n :=
  exists (take n categories), (default (fun _ => Ok true) (categories.*1 !! n)),
         (drop (S n) categories);
  split; [reflexivity|]; split; [assumption|];
  repeat constructor; assumption.

Lemma rank_first_match (cards : list Card.t) :
  cards ≠ [] ->
  exists r, Hand.rank (Hand.init cards) = Ok r
    /\ first_match (Hand.init cards) r.
Proof.
  intros Hne.
  destruct (checks_total cards Hne)
    as (bf & bs & b4 & bfh & b3 & b2p & bp
        & Ef & Es & Esf & E4 & Efh & E3 & E2p & Ep).
  cbv zeta in *. unfold Hand.rank, first_match.
  rewrite Esf, E4, Efh, Ef, Es, E3, E2p, Ep. cbn [bind].
  destruct (bf && bs); [eexists; split; [reflexivity|]; first_match_at 0%nat|].
  destruct b4; [eexists; split; [reflexivity|]; first_match_at 1%nat|].
  destruct bfh; [eexists; split; [reflexivity|]; first_match_at 2%nat|].
  destruct bf; [eexists; split; [reflexivity|]; first_match_at 3%nat|].
  destruct bs; [eexists; split; [reflexivity|]; first_match_at 4%nat|].
  destruct b3; [eexists; split; [reflexivity|]; first_match_at 5%nat|].
  destruct b2p; [eexists; split; [reflexivity|]; first_match_at 6%nat|].
  destruct bp; [eexists; split; [reflexivity|]; first_match_at 7%nat|].
  eexists; split; [reflexivity|].
  exists (take 8 categories), (fun _ => Ok true), []. 
  split; [reflexivity|]. split; [reflexivity|].
  repeat constructor; assumption.
Qed.

Lemma categories_ranks_NoDup : NoDup categories.*2.
Proof.
  apply (NoDup_fmap_1 Rank.value). vm_compute.
  repeat (constructor; [rewrite ?elem_of_cons, elem_of_nil; lia|]).
  constructor.
Qed.

(** C5: the rank of a non-empty hand is that of the first category, in the
    order straight flush, four of a kind, full house, flush, straight,
    three of a kind, two pair, pair, high card, whose check holds; so when
    the check of a category holds, the rank is none of the categories
    after it. *)
Theorem rank_priority (cards : list Card.t) :
  cards <> [] ->
  let h := Hand.init cards in
  exists r,
    Hand.rank h = Ok r
    /\ first_match h r
    /\ forall (i j : nat) p q,
         categories !! i = Some p -> categories !! j = Some q ->
         (i < j)%nat -> p.1 h = Ok true -> q.2 <> r.
Proof.
  intros Hne h. destruct (rank_first_match cards Hne) as (r & Er & Hfm).
  exists r. split; [done|]. split; [done|].
  intros i j p q Hi Hj Hij Hp Hq.
  destruct Hfm as (pre & chk & post & Hcat & _ & Hpre).
  assert (Hj' : categories.*2 !! j = Some r).
  { by rewrite list_lookup_fmap, Hj, <- Hq. }
  assert (Hr : categories.*2 !! length pre = Some r).
  { rewrite list_lookup_fmap, Hcat, list_lookup_middle by done. done. }
  pose proof (NoDup_lookup _ _ _ _ categories_ranks_NoDup Hj' Hr) as ->.
  rewrite Hcat, lookup_app_l in Hi by done.
  rewrite Forall_forall in Hpre.
  specialize (Hpre p (list_elem_of_lookup_2 _ _ _ Hi)).
  fold h in Hpre. congruence.
Qed.

Lemma rank_priority_witness :
  exists r,
    Hand.rank (Hand.init threes_full_of_sevens) = Ok r
    /\ first_match (Hand.init threes_full_of_sevens) r
    /\ forall (i j : nat) p q,
         categories !! i = Some p -> categories !! j = Some q ->
         (i < j)%nat -> p.1 (Hand.init threes_full_of_sevens) = Ok true ->
         q.2 <> r.
Proof. apply (rank_priority threes_full_of_sevens). discriminate. Defined.

(** ** Hand: a single card *)

(** C10: a hand of exactly one card is a flush and a straight, and its
    rank is the straight flush. *)
Theorem single_card_rank (c : Card.t) :
  Hand.is_flush (Hand.init [c]) = Ok true
  /\ Hand.is_straight (Hand.init [c]) = Ok true
  /\ Hand.rank (Hand.init [c]) = Ok Hand.Ranks.STRAIGHT_FLUSH.
Proof.
  assert (Ef : Hand.is_flush (Hand.init [c]) = Ok true).
  { unfold Hand.is_flush. rewrite init_cards. cbn [py_sorted foldr py_insert].
    rewrite list_fmap_singleton, list_to_set_singleton_L, size_singleton.
    reflexivity. }
  assert (Es : Hand.is_straight (Hand.init [c]) = Ok true).
  { destruct (is_straight_spec [c]) as (b & Eb & Hb); [done|].
    rewrite Eb. f_equal. apply Hb. left. unfold contiguous_run.
    exists (ace_low (strength c)), (ace_low (strength c)).
    rewrite list_fmap_singleton.
    split; [by apply list_elem_of_singleton|].
    split; [by apply list_elem_of_singleton|].
    split; [intros v ->%list_elem_of_singleton; lia|].
    split; [simpl; lia|]. reflexivity. }
  split; [done|]. split; [done|].
  unfold Hand.rank, Hand.is_straight_flush, py_and. by rewrite Ef, Es.
Qed.

(** ** Card: parsing *)

Lemma upper_ascii_idemp (c : ascii) : upper_ascii (upper_ascii c) = upper_ascii c.
Proof. destruct c as [[] [] [] [] [] [] [] []]; reflexivity. Qed.

Lemma upper_idemp (s : string) : upper (upper s) = upper s.
Proof.
  induction s as [|c s IH]; simpl; [done|]. by rewrite upper_ascii_idemp, IH.
Qed.

Lemma upper_length (s : string) : String.length (upper s) = String.length s.
Proof. induction s as [|c s IH]; simpl; [done|]. by rewrite IH. Qed.

(** The parse reads its text through [upper] only. *)
Lemma get_upper (text : string) : Card.get text = Card.get (upper text).
Proof. unfold Card.get. by rewrite upper_length, upper_idemp. Qed.

Lemma get_code (c : Card.t) : valid_card c -> Card.get (code c) = Ok c.
Proof.
  destruct c as [v s]. unfold valid_card. cbn [Card.value Card.suit].
  rewrite Values_all_eq, Suits_all_eq. intros [Hv Hs].
  repeat (apply elem_of_cons in Hs as [->|Hs]);
    try (by apply elem_of_nil in Hs);
    repeat (apply elem_of_cons in Hv as [->|Hv]);
    try (by apply elem_of_nil in Hv);
    vm_compute; reflexivity.
Qed.

(** C8: for each of the 52 cards, parsing its letter-code form, the value
    code followed by the suit code, gives a card equal to it by [==]; and
    the parse ignores case: any text whose upper-case form is that code,
    the lower-case code among them, parses to the same card. *)
Theorem get_code_roundtrip (c : Card.t) :
  valid_card c ->
  (exists c', Card.get (code c) = Ok c' /\ Card.eqb c' c = true)
  /\ (forall text, upper text = code c -> Card.get text = Ok c)
  /\ upper (lower (code c)) = code c
  /\ Card.get (lower (code c)) = Ok c.
Proof.
  intros Hc. pose proof (get_code c Hc) as Hg.
  assert (Hup : forall text, upper text = code c -> Card.get text = Ok c).
  { intros text Ht. by rewrite get_upper, Ht. }
  assert (Hlow : upper (lower (code c)) = code c).
  { destruct c as [v s]. destruct Hc as [Hv Hs]. cbn [Card.value Card.suit] in *.
    rewrite Values_all_eq in Hv. rewrite Suits_all_eq in Hs.
    repeat (apply elem_of_cons in Hs as [->|Hs]);
      try (by apply elem_of_nil in Hs);
      repeat (apply elem_of_cons in Hv as [->|Hv]);
      try (by apply elem_of_nil in Hv);
      vm_compute; reflexivity. }
  split; [exists c; split; [done|apply Card_eqb_refl]|].
  split; [done|]. split; [done|]. by apply Hup.
Qed.

Lemma get_code_roundtrip_witness :
  Card.get "as" = Ok ace_of_spades.
Proof.
  assert (Hc : valid_card ace_of_spades).
  { split; [rewrite Values_all_eq|rewrite Suits_all_eq]; by left. }
  destruct (get_code_roundtrip ace_of_spades Hc) as (_ & Hup & _ & _).
  apply Hup. reflexivity.
Defined.

(** * Further properties *)

(** ** Deck: what a draw takes and what it leaves *)



(** A draw that returns has split the cards: what is left, followed by
    the drawn cards last drawn first, is what was there. *)
Lemma draw_ok_split (d d' : Deck.t) (times : Z) (x : Deck.drawn) :
  Deck.draw d times = (d', Ok x) ->
  Deck.cards d = Deck.cards d' ++ reverse (drawn_cards x)
  /\ Deck.draws d' = Deck.draws d + Z.of_nat (length (drawn_cards x))
  /\ Deck.shuffles d' = Deck.shuffles d
  /\ Z.of_nat (length (drawn_cards x)) = Z.max 0 times.
Proof.
  destruct d as [cs sh dr]. unfold Deck.draw. simpl.
  destruct (Z.eqb_spec times 1) as [->|Hne].
  - destruct cs as [|c cs _] using rev_ind; [by rewrite py_pop_nil|].
    rewrite py_pop_snoc. intros [= <- <-]. simpl. repeat split; lia.
  - destruct (decide (range_len times <= length cs)%nat) as [Hle|Hgt].
    + rewrite draw_loop_ok by done. simpl. intros [= <- <-]. simpl.
      rewrite reverse_involutive, take_drop, length_reverse, length_drop.
      unfold range_len in *. repeat split; lia.
    + rewrite draw_loop_underflow by lia. simpl. discriminate.
Qed.

(** X1: a draw of at most the number of remaining cards returns: it takes
    the cards off the tail of the list, the last card first, leaves the
    others in place, and counts one draw per card; the result is a single
    card exactly when [times] is 1. *)
Theorem draw_within (d : Deck.t) (times : Z) :
  times <= Deck.cards_left d ->
  let n := range_len times in
  let kept := (length (Deck.cards d) - n)%nat in
  exists x,
    Deck.draw d times
    = (Deck.mk (take kept (Deck.cards d)) (Deck.shuffles d)
               (Deck.draws d + Z.of_nat n), Ok x)
    /\ drawn_cards x = reverse (drop kept (Deck.cards d))
    /\ ((exists c, x = Deck.One c) <-> times = 1).
Proof.
  destruct d as [cs sh dr]. unfold Deck.cards_left, Deck.draw. simpl.
  intros Ht. destruct (Z.eqb_spec times 1) as [->|Hne].
  - destruct cs as [|c cs _] using rev_ind; [simpl in Ht; lia|].
    rewrite py_pop_snoc. exists (Deck.One c). simpl.
    rewrite length_app. simpl.
    replace (length cs + 1 - range_len 1)%nat with (length cs)
      by (unfold range_len; lia).
    replace (Z.of_nat (range_len 1)) with 1 by (unfold range_len; lia).
    rewrite take_app_length, drop_app_length.
    split; [done|]. split; [done|]. split; [done|by exists c].
  - assert (Hle : (range_len times <= length cs)%nat)
      by (unfold range_len; lia).
    rewrite draw_loop_ok by done. simpl.
    eexists. split; [reflexivity|]. split; [done|].
    split; [by intros [c [=]]|done].
Qed.

Lemma draw_within_witness :
  exists x,
    Deck.draw (Deck.mk [king_of_hearts; two_of_spades; ace_of_spades] 0 0) 2
    = (Deck.mk [king_of_hearts] 0 2, Ok x)
    /\ drawn_cards x = [ace_of_spades; two_of_spades]
    /\ ((exists c, x = Deck.One c) <-> 2 = 1).
Proof.
  apply (draw_within
           (Deck.mk [king_of_hearts; two_of_spades; ace_of_spades] 0 0) 2).
  vm_compute. discriminate.
Defined.



(** ** Deck: top and bottom *)

Lemma last_Some_snoc {A} (l : list A) (x : A) :
  last l = Some x <-> exists rest, l = rest ++ [x].
Proof.
  split.
  - destruct l as [|y l _] using rev_ind; [done|].
    rewrite last_snoc. intros [= ->]. by exists l.
  - intros [rest ->]. apply last_snoc.
Qed.

(** X3: [top] and [bottom] raise [IndexError] on an empty deck and on no
    other; otherwise [top] is the last card of the list, the one a draw of
    1 returns, and [bottom] the first. *)
Theorem top_bottom (d : Deck.t) :
  (Deck.top d = Raise IndexError <-> Deck.cards_left d = 0)
  /\ (Deck.bottom d = Raise IndexError <-> Deck.cards_left d = 0)
  /\ (forall c, Deck.top d = Ok c <-> exists rest, Deck.cards d = rest ++ [c])
  /\ (forall c, Deck.bottom d = Ok c <-> exists rest, Deck.cards d = c :: rest)
  /\ (forall c, Deck.top d = Ok c <-> (Deck.draw d 1).2 = Ok (Deck.One c)).
Proof.
  destruct d as [cs sh dr].
  unfold Deck.top, Deck.bottom, Deck.cards_left, Deck.draw, py_last, py_first,
    py_pop.
  cbn [Deck.cards Deck.shuffles Deck.draws Z.eqb Pos.eqb].
  split; [|split; [|split; [|split]]].
  - destruct cs as [|c cs _] using rev_ind; [done|].
    rewrite last_snoc, length_app. simpl. split; [done|lia].
  - destruct cs as [|c cs]; simpl; [done|]. split; [done|lia].
  - intros c. rewrite <- last_Some_snoc.
    destruct (last cs); split; congruence.
  - intros c. destruct cs as [|c' cs]; simpl.
    + split; [done|]. by intros [rest ?].
    + split; [intros [= ->]; by exists cs|]. by intros [rest [= -> _]].
  - intros c. destruct (last cs); simpl; split; congruence.
Qed.

(** ** Deck: shuffle *)

(** X4: a shuffle keeps the cards, each as often as before, and so their
    number; it leaves the draw counter alone and adds the number of
    repetitions, none for a negative [times], to the shuffle counter. *)
Theorem shuffle_keeps_cards (d : Deck.t) (times : Z) (g : Rng) :
  let d' := (Deck.shuffle d times g).1 in
  Deck.cards d' ≡ₚ Deck.cards d
  /\ Deck.cards_left d' = Deck.cards_left d
  /\ Deck.draws d' = Deck.draws d
  /\ Deck.shuffles d' = Deck.shuffles d + Z.max 0 times.
Proof.
  unfold Deck.shuffle, Deck.cards_left.
  destruct (shuffle_loop_spec (range_len times) d g) as (Hp & Hd & Hs).
  cbv zeta in *. split; [done|]. split; [by rewrite Hp|]. split; [done|].
  rewrite Hs. unfold range_len. lia.
Qed.

(** ** Deck: the constructor's [cards] argument *)

(** X5: a non-empty list given to the constructor becomes the deck, in the
    given order when [shuffle] is off and permuted when it is on, with no
    draw counted and one shuffle counted exactly when [shuffle] is on; an
    empty list is taken as no list, and gives the default deck of 52. *)
Theorem init_with_cards (cards : list Card.t) (shuffle : bool) (g : Rng) :
  cards <> [] ->
  let d := (Deck.init (Some cards) shuffle g).1 in
  Deck.cards d ≡ₚ cards
  /\ (shuffle = false -> Deck.cards d = cards)
  /\ Deck.draws d = 0
  /\ Deck.shuffles d = (if shuffle then 1 else 0)
  /\ Deck.init (Some []) shuffle g = Deck.init None shuffle g.
Proof.
  intros Hne. destruct cards as [|c l]; [done|].
  unfold Deck.init. destruct shuffle.
  - pose proof (shuffle_loop_spec (range_len 1) (Deck.mk (c :: l) 0 0) g)
      as (Hp & Hd & Hs).
    unfold Deck.shuffle. cbv zeta in *.
    repeat split; [done|done|done|]. rewrite Hs. reflexivity.
  - repeat split; done.
Qed.

Lemma init_with_cards_witness :
  Deck.cards (Deck.init (Some [two_of_spades; ace_of_spades]) true rng_zero).1
  ≡ₚ [two_of_spades; ace_of_spades].
Proof.
  apply (init_with_cards [two_of_spades; ace_of_spades] true rng_zero).
  discriminate.
Defined.

(** ** Deck: containment *)

Lemma contains_elem_of (d : Deck.t) (c : Card.t) :
  Deck.contains d c = true <-> c ∈ Deck.cards d.
Proof.
  unfold Deck.contains. rewrite existsb_exists, list_elem_of_In. split.
  - intros (c' & Hin & ->%Card_eqb_eq). done.
  - intros Hin. exists c. split; [done|apply Card_eqb_refl].
Qed.

Section Product.
Variables (vs : list Value.t) (ss : list Suit.t).

Lemma elem_of_product (c : Card.t) :
  c ∈ flat_map (fun s => (fun v => Card.mk v s) <$> vs) ss
  <-> Card.value c ∈ vs /\ Card.suit c ∈ ss.
Proof.
  rewrite list_elem_of_In, in_flat_map. setoid_rewrite <- list_elem_of_In.
  setoid_rewrite list_elem_of_fmap. split.
  - intros (s & Hs & v & -> & Hv). done.
  - intros [Hv Hs]. exists (Card.suit c). split; [done|].
    exists (Card.value c). split; [by destruct c|done].
Qed.

Lemma NoDup_product :
  NoDup vs -> NoDup ss ->
  NoDup (flat_map (fun s => (fun v => Card.mk v s) <$> vs) ss).
Proof.
  intros Hvs. induction 1 as [|s l Hs Hl IH]; simpl; [constructor|].
  apply NoDup_app. split; [|split; [|done]].
  - apply NoDup_fmap_2; [|done]. by intros v v' [= ->].
  - intros c [v [-> Hv]]%list_elem_of_fmap Hin.
    rewrite list_elem_of_In, in_flat_map in Hin.
    destruct Hin as (s' & Hs' & Hin).
    rewrite <- list_elem_of_In in Hs'. rewrite <- list_elem_of_In in Hin.
    apply list_elem_of_fmap in Hin as [v' [[= -> ->] _]]. done.
Qed.

End Product.

Lemma Values_all_NoDup : NoDup Card.Values.all.
Proof.
  apply (NoDup_fmap_1 Value.value). vm_compute.
  repeat (constructor; [rewrite ?elem_of_cons, elem_of_nil; lia|]).
  constructor.
Qed.

Lemma Suits_all_NoDup : NoDup Card.Suits.all.
Proof.
  apply (NoDup_fmap_1 Suit.value). vm_compute.
  repeat (constructor; [rewrite ?elem_of_cons, elem_of_nil; lia|]).
  constructor.
Qed.

Lemma elem_of_base_order (c : Card.t) : c ∈ Deck.base_order <-> valid_card c.
Proof. apply elem_of_product. Qed.

Lemma base_order_NoDup : NoDup Deck.base_order.
Proof. apply NoDup_product; [apply Values_all_NoDup|apply Suits_all_NoDup]. Qed.

(** X6: a deck constructed with the default enumeration, shuffled or not,
    holds no card twice, and it contains a card exactly when the card is a
    value of [Values] with a suit of [Suits]. *)
Theorem default_deck_contains (shuffle : bool) (g : Rng) (c : Card.t) :
  let d := (Deck.init None shuffle g).1 in
  NoDup (Deck.cards d)
  /\ (Deck.contains d c = true <-> valid_card c).
Proof.
  intros d. pose proof (init_default_cards shuffle g) as Hp. fold d in Hp.
  split.
  - rewrite Hp. apply base_order_NoDup.
  - by rewrite contains_elem_of, Hp, elem_of_base_order.
Qed.

(** X7: on a deck that holds no card twice, a draw that returns leaves a
    deck that holds no card twice and contains exactly the cards it
    contained before other than the drawn ones: a drawn card is no longer
    in the deck. *)
Theorem draw_removes (d d' : Deck.t) (times : Z) (x : Deck.drawn) :
  NoDup (Deck.cards d) ->
  Deck.draw d times = (d', Ok x) ->
  NoDup (Deck.cards d')
  /\ NoDup (drawn_cards x)
  /\ forall c,
       Deck.contains d' c = true
       <-> Deck.contains d c = true /\ c ∉ drawn_cards x.
Proof.
  intros Hnd Hdraw.
  destruct (draw_ok_split _ _ _ _ Hdraw) as (Hsplit & _).
  rewrite Hsplit in Hnd. apply NoDup_app in Hnd as (Hnd' & Hdisj & Hndx).
  split; [done|]. split; [by rewrite reverse_Permutation in Hndx|].
  intros c. rewrite !contains_elem_of, Hsplit, elem_of_app, elem_of_reverse.
  split.
  - intros Hin. split; [by left|]. intros Hx. apply (Hdisj c Hin).
    by apply elem_of_reverse.
  - intros [[?|?] ?]; done.
Qed.

Lemma draw_removes_witness :
  Deck.contains (Deck.mk [king_of_hearts] 0 2) ace_of_spades = true
  <-> Deck.contains
        (Deck.mk [king_of_hearts; two_of_spades; ace_of_spades] 0 0)
        ace_of_spades = true
      /\ ace_of_spades ∉ [ace_of_spades; two_of_spades].
Proof.
  assert (Hnd : NoDup [king_of_hearts; two_of_spades; ace_of_spades]).
  { apply (NoDup_fmap_1 strength). vm_compute.
    repeat (constructor; [rewrite ?elem_of_cons, elem_of_nil; lia|]).
    constructor. }
  apply (draw_removes
           (Deck.mk [king_of_hearts; two_of_spades; ace_of_spades] 0 0)
           (Deck.mk [king_of_hearts] 0 2) 2
           (Deck.Many [ace_of_spades; two_of_spades]) Hnd).
  vm_compute. reflexivity.
Defined.

(** ** EuchreDeck *)

Lemma init_some_spec (cards : list Card.t) (shuffle : bool) (g : Rng) :
  cards ≠ [] ->
  Deck.cards (Deck.init (Some cards) shuffle g).1 ≡ₚ cards
  /\ Deck.draws (Deck.init (Some cards) shuffle g).1 = 0
  /\ Deck.shuffles (Deck.init (Some cards) shuffle g).1
     = (if shuffle then 1 else 0).
Proof.
  intros Hne. destruct cards as [|c l]; [done|].
  unfold Deck.init. destruct shuffle; [|done].
  pose proof (shuffle_loop_spec (range_len 1) (Deck.mk (c :: l) 0 0) g)
    as (Hp & Hd & Hs).
  unfold Deck.shuffle. cbv zeta in *. split; [done|]. split; [done|].
  rewrite Hs. reflexivity.
Qed.

(** X8: the euchre deck holds 24 cards, none twice: it contains a card
    exactly when the card is a standard one with value 9 or more or with
    value 1. It is shuffled once at construction and has no draw
    counted. *)
Theorem euchre_deck (g : Rng) (c : Card.t) :
  let d := (EuchreDeck.init g).1 in
  Deck.cards_left d = 24
  /\ NoDup (Deck.cards d)
  /\ (Deck.contains d c = true
      <-> valid_card c /\ (strength c >= 9 \/ strength c = 1))
  /\ Deck.shuffles d = 1
  /\ Deck.draws d = 0.
Proof.
  unfold EuchreDeck.init.
  set (values := filter _ Card.Values.all).
  set (cards := flat_map _ Card.Suits.all).
  assert (Hlen : length cards = 24%nat) by (vm_compute; reflexivity).
  assert (Hnd : NoDup cards).
  { apply NoDup_product; [|apply Suits_all_NoDup].
    apply NoDup_filter, Values_all_NoDup. }
  assert (Hin : c ∈ cards
                <-> valid_card c /\ (strength c >= 9 \/ strength c = 1)).
  { unfold cards. rewrite elem_of_product. unfold values.
    rewrite list_elem_of_filter. unfold valid_card, strength. tauto. }
  clearbody cards. clear values.
  assert (Hne : reverse cards ≠ []).
  { intros E. apply (f_equal length) in E.
    rewrite length_reverse, Hlen in E. done. }
  pose proof (init_some_spec (reverse cards) true g Hne) as (Hp0 & Hd & Hs).
  cbv zeta.
  pose proof (transitivity Hp0 (reverse_Permutation cards)) as Hp. clear Hp0.
  split; [|split; [|split; [|done]]].
  - unfold Deck.cards_left. by rewrite Hp, Hlen.
  - by rewrite Hp.
  - by rewrite contains_elem_of, Hp.
Qed.

(** ** Deck: draw_hand *)





(** ** Hand: the constructor's sort *)

Section SortedByKey.
Context {A : Type} (key : A -> Z).
Let lt (a b : A) : bool := key a <? key b.
Let le (a b : A) : Prop := key a <= key b.

Lemma py_insert_Sorted_key (x : A) (l : list A) :
  Sorted le l -> Sorted le (py_insert lt x l).
Proof.
  induction 1 as [|y l Hs IH Hhd]; simpl; [by repeat constructor|].
  unfold lt at 1. destruct (Z.ltb_spec (key y) (key x)) as [Hlt|Hge].
  - constructor; [done|].
    destruct l as [|z l]; simpl in *.
    + constructor. unfold le. lia.
    + inversion Hhd; subst. unfold lt.
      destruct (Z.ltb_spec (key z) (key x)); constructor; unfold le in *; lia.
  - constructor; [by constructor|]. by constructor.
Qed.

Lemma py_sorted_Sorted_key (l : list A) : Sorted le (py_sorted lt l).
Proof.
  induction l as [|x l IH]; simpl; [constructor|].
  by apply py_insert_Sorted_key.
Qed.

(** The sort is stable: the elements of one key keep their order. *)
Lemma py_insert_filter_key (v : Z) (x : A) (l : list A) :
  filter (fun a => key a = v) (py_insert lt x l)
  = filter (fun a => key a = v) (x :: l).
Proof.
  induction l as [|y l IH]; simpl; [done|].
  unfold lt at 1. destruct (Z.ltb_spec (key y) (key x)) as [Hlt|Hge]; [|done].
  rewrite (filter_cons _ y), IH, !filter_cons.
  destruct (decide (key y = v)), (decide (key x = v)); try done. lia.
Qed.

Lemma py_sorted_filter_key (v : Z) (l : list A) :
  filter (fun a => key a = v) (py_sorted lt l) = filter (fun a => key a = v) l.
Proof.
  induction l as [|x l IH]; simpl; [done|].
  by rewrite py_insert_filter_key, !filter_cons, IH.
Qed.

End SortedByKey.

(** X10: the constructor keeps the given list in [_cards] and sorts it
    into [cards]: the same cards, in ascending order of value strength,
    cards of equal strength in the order given; [size] is their number. *)
Theorem hand_cards_sorted (cards : list Card.t) :
  let h := Hand.init cards in
  Hand._cards h = cards
  /\ Hand.cards h ≡ₚ cards
  /\ Sorted (fun a b => strength a <= strength b) (Hand.cards h)
  /\ (forall v, filter (fun c => strength c = v) (Hand.cards h)
                = filter (fun c => strength c = v) cards)
  /\ Hand.size h = Z.of_nat (length cards)
  /\ Hand.len h = Z.of_nat (length cards).
Proof.
  intros h. subst h. rewrite init_size. unfold Hand.len. rewrite init_cards.
  split; [done|]. split; [apply py_sorted_Permutation|].
  split; [apply (py_sorted_Sorted_key strength)|].
  split; [intros v; apply (py_sorted_filter_key strength)|].
  by rewrite py_sorted_length.
Qed.

(** ** Hand: flush *)

Lemma hand_suit_set (cards : list Card.t) :
  (list_to_set
     ((fun x => Suit.value (Card.suit x)) <$> Hand.cards (Hand.init cards))
   : gset Z)
  = list_to_set ((fun x => Suit.value (Card.suit x)) <$> cards).
Proof.
  apply list_to_set_Permutation. rewrite init_cards.
  by rewrite py_sorted_Permutation.
Qed.

(** X11: [is_flush] never raises; it holds exactly when the hand has a
    card and all its cards have the same suit value. The empty hand is no
    flush. *)
Theorem is_flush_iff (cards : list Card.t) :
  exists b,
    Hand.is_flush (Hand.init cards) = Ok b
    /\ (b = true <->
        cards <> []
        /\ forall c c', c ∈ cards -> c' ∈ cards ->
             Suit.value (Card.suit c) = Suit.value (Card.suit c')).
Proof.
  unfold Hand.is_flush. rewrite hand_suit_set.
  eexists. split; [reflexivity|].
  set (s := list_to_set _ : gset Z).
  rewrite Z.eqb_eq. split.
  - intros Hs. assert (Hs1 : size s = 1%nat) by lia.
    split.
    + intros ->. subst s. rewrite fmap_nil, list_to_set_nil, size_empty in Hs1.
      done.
    + intros c c' Hc Hc'. apply (size_singleton_inv s _ _ Hs1);
        apply elem_of_list_to_set, list_elem_of_fmap; by eexists.
  - intros [Hne Hall]. destruct cards as [|c0 cards]; [done|].
    assert (E : s = {[ Suit.value (Card.suit c0) ]}).
    { apply set_eq. intros y. subst s.
      rewrite elem_of_list_to_set, list_elem_of_fmap, elem_of_singleton.
      split.
      - intros (c & -> & Hc). apply Hall; [done|by left].
      - intros ->. exists c0. split; [done|by left]. }
    by rewrite E, size_singleton.
Qed.

(** ** Hand: the rank of the empty hand *)

(** X12: [rank] raises [IndexError] on the empty hand and on no other: on
    a hand with a card it returns one of the nine ranks. *)
Theorem rank_raises_iff_empty (cards : list Card.t) :
  (Hand.rank (Hand.init cards) = Raise IndexError <-> cards = [])
  /\ (cards <> [] ->
      exists r, Hand.rank (Hand.init cards) = Ok r /\ r ∈ categories.*2).
Proof.
  assert (Hok : cards <> [] ->
    exists r, Hand.rank (Hand.init cards) = Ok r /\ r ∈ categories.*2).
  { intros Hne. destruct (rank_first_match cards Hne) as (r & Er & Hfm).
    exists r. split; [done|].
    destruct Hfm as (pre & chk & post & -> & _).
    rewrite fmap_app, fmap_cons, elem_of_app. right. by left. }
  split; [|done]. split.
  - intros Hr. destruct cards as [|c cards]; [done|].
    destruct Hok as (r & Er & _); [done|]. congruence.
  - intros ->. vm_compute. reflexivity.
Qed.

Lemma rank_raises_iff_empty_witness :
  exists r, Hand.rank (Hand.init wheel) = Ok r /\ r ∈ categories.*2.
Proof. apply (proj2 (rank_raises_iff_empty wheel)). discriminate. Defined.

(** ** Hand: the order of the cards does not matter *)

Lemma multiplicity_Permutation (v : Z) (l1 l2 : list Z) :
  l1 ≡ₚ l2 -> multiplicity v l1 = multiplicity v l2.
Proof. intros Hp. unfold multiplicity. by rewrite Hp. Qed.

Lemma multiplicities_Permutation (l1 l2 : list Z) :
  l1 ≡ₚ l2 -> multiplicities l1 ≡ₚ multiplicities l2.
Proof.
  intros Hp. unfold multiplicities.
  rewrite (list_fmap_ext _ (fun v => multiplicity v l2) (remove_dups l1))
    by (intros; by apply multiplicity_Permutation).
  apply fmap_Permutation, NoDup_Permutation; try apply NoDup_remove_dups.
  intros v. by rewrite !elem_of_remove_dups, Hp.
Qed.

Lemma groups_Permutation (l1 l2 : list Card.t) :
  l1 ≡ₚ l2 -> groups l1 = groups l2.
Proof.
  intros Hp. unfold groups. apply (Sorted_unique desc).
  - apply Sorted_merge_sort. apply _.
  - apply Sorted_merge_sort. apply _.
  - rewrite !merge_sort_Permutation. apply multiplicities_Permutation.
    by rewrite Hp.
Qed.

Lemma is_flush_Permutation (l1 l2 : list Card.t) :
  l1 ≡ₚ l2 -> Hand.is_flush (Hand.init l1) = Hand.is_flush (Hand.init l2).
Proof.
  intros Hp. unfold Hand.is_flush. rewrite !hand_suit_set.
  rewrite (list_to_set_Permutation _ ((fun x => Suit.value (Card.suit x)) <$> l2));
    [done|by rewrite Hp].
Qed.

Lemma is_straight_Permutation (l1 l2 : list Card.t) :
  l1 ≡ₚ l2 ->
  Hand.is_straight (Hand.init l1) = Hand.is_straight (Hand.init l2).
Proof.
  intros Hp. unfold Hand.is_straight. rewrite !low_ace_set, !high_ace_set.
  unfold Hand.check. rewrite !init_size, (Permutation_length Hp).
  rewrite (list_to_set_Permutation
             ((fun c => ace_low (strength c)) <$> l1)
             ((fun c => ace_low (strength c)) <$> l2)) by (by rewrite Hp).
  rewrite (list_to_set_Permutation
             ((fun c => ace_high (strength c)) <$> l1)
             ((fun c => ace_high (strength c)) <$> l2)) by (by rewrite Hp).
  done.
Qed.

(** X13: the rank of a hand does not depend on the order in which its
    cards are given, nor do the flush and straight checks or the list of
    groups. *)
Theorem rank_Permutation (l1 l2 : list Card.t) :
  l1 ≡ₚ l2 ->
  Hand.rank (Hand.init l1) = Hand.rank (Hand.init l2)
  /\ Hand.is_flush (Hand.init l1) = Hand.is_flush (Hand.init l2)
  /\ Hand.is_straight (Hand.init l1) = Hand.is_straight (Hand.init l2)
  /\ Hand._vals (Hand.init l1) = Hand._vals (Hand.init l2).
Proof.
  intros Hp.
  pose proof (is_flush_Permutation l1 l2 Hp) as Hf.
  pose proof (is_straight_Permutation l1 l2 Hp) as Hs.
  assert (Hv : Hand._vals (Hand.init l1) = Hand._vals (Hand.init l2)).
  { rewrite !vals_groups. by apply groups_Permutation. }
  split; [|done].
  unfold Hand.rank, Hand.is_straight_flush, Hand.is_four_of_a_kind,
    Hand.is_full_house, Hand.is_three_of_a_kind, Hand.is_two_pair,
    Hand.is_one_pair.
  by rewrite Hf, Hs, Hv.
Qed.

Lemma rank_Permutation_witness :
  Hand.rank (Hand.init (reverse wheel)) = Hand.rank (Hand.init wheel).
Proof.
  apply (rank_Permutation (reverse wheel) wheel). apply reverse_Permutation.
Defined.

(** ** Hand: a straight has no pair *)

Lemma remove_dups_length_le (l : list Z) :
  (length (remove_dups l) <= length l)%nat.
Proof.
  induction l as [|x l IH]; simpl; [done|].
  destruct (decide_rel _ _ _); simpl; lia.
Qed.

Lemma distinct_count_NoDup (l : list Z) :
  distinct_count l = length l -> NoDup l.
Proof.
  unfold distinct_count. induction l as [|x l IH]; simpl; [constructor|].
  pose proof (remove_dups_length_le l).
  destruct (decide_rel _ _ _) as [Hin|Hnin]; simpl; [lia|].
  intros [= E]. apply NoDup_cons. split; [done|by apply IH].
Qed.

Lemma contiguous_run_NoDup (reading : Z -> Z) (cards : list Card.t) :
  contiguous_run reading cards -> NoDup (strength <$> cards).
Proof.
  intros (lo & hi & _ & _ & _ & _ & Hd). cbv zeta in Hd.
  apply (NoDup_fmap_1 reading). rewrite <- list_fmap_compose.
  apply distinct_count_NoDup. rewrite length_fmap. exact Hd.
Qed.

Lemma multiplicity_NoDup (v : Z) (l : list Z) :
  NoDup l -> v ∈ l -> multiplicity v l = 1.
Proof.
  induction 1 as [|x l Hx Hl IH]; [by intros ?%elem_of_nil|].
  intros Hin. change (x :: l) with ([x] ++ l).
  unfold multiplicity in *. rewrite filter_app, length_app.
  rewrite filter_cons, filter_nil.
  destruct (decide (v = x)) as [->|Hne]; simpl.
  - pose proof (multiplicity_not_in x l Hx) as H0.
    unfold multiplicity in H0. lia.
  - apply elem_of_cons in Hin as [?|Hin]; [done|]. by apply IH.
Qed.

Lemma groups_all_one (cards : list Card.t) :
  NoDup (strength <$> cards) -> Forall (eq 1) (groups cards).
Proof.
  intros Hnd. unfold groups. rewrite merge_sort_Permutation.
  unfold multiplicities. apply Forall_fmap, Forall_forall.
  intros v Hv. rewrite elem_of_remove_dups in Hv. simpl.
  symmetry. by apply multiplicity_NoDup.
Qed.

(** X14: a non-empty hand that is a straight has no value twice, so none
    of the multiplicity checks holds of it, and its rank is the straight
    flush when it is a flush and the straight when it is not. *)
Theorem straight_has_no_pair (cards : list Card.t) :
  cards <> [] ->
  let h := Hand.init cards in
  Hand.is_straight h = Ok true ->
  NoDup (strength <$> cards)
  /\ Hand.is_four_of_a_kind h = Ok false
  /\ Hand.is_full_house h = Ok false
  /\ Hand.is_three_of_a_kind h = Ok false
  /\ Hand.is_two_pair h = Ok false
  /\ Hand.is_one_pair h = Ok false
  /\ exists bf, Hand.is_flush h = Ok bf
       /\ Hand.rank h
          = Ok (if bf then Hand.Ranks.STRAIGHT_FLUSH else Hand.Ranks.STRAIGHT).
Proof.
  intros Hne h Hs. subst h.
  destruct (is_straight_spec cards Hne) as (b & Eb & Hb).
  assert (b = true) as -> by congruence.
  assert (Hnd : NoDup (strength <$> cards)).
  { destruct (proj1 Hb eq_refl); by eapply contiguous_run_NoDup. }
  pose proof (groups_all_one cards Hnd) as Hone.
  pose proof (groups_nonempty cards Hne) as Hg.
  assert (E4 : forall n, n <> 1 ->
    (do v <- py_first (Hand._vals (Hand.init cards)); Ok (v =? n)) = Ok false).
  { intros n Hn. rewrite largest_group_check by done.
    destruct (groups cards) as [|x g]; [done|].
    apply Forall_cons in Hone as [<- _]. simpl.
    rewrite bool_decide_eq_false_2; [done|]. by intros [= ?]. }
  assert (E2 : forall a b : Z, a <> 1 ->
    bool_decide (take 2 (Hand._vals (Hand.init cards)) = [a; b]) = false).
  { intros a b' Ha. rewrite vals_groups.
    destruct (groups cards) as [|x g]; [done|].
    apply Forall_cons in Hone as [<- _].
    apply bool_decide_eq_false_2. simpl. by intros [= ?]. }
  assert (Ef : exists bf, Hand.is_flush (Hand.init cards) = Ok bf)
    by (by eexists).
  destruct Ef as [bf Ef].
  unfold Hand.is_four_of_a_kind, Hand.is_three_of_a_kind, Hand.is_one_pair,
    Hand.is_full_house, Hand.is_two_pair.
  rewrite !E4, !E2 by done.
  repeat (split; [done|]). exists bf. split; [done|].
  unfold Hand.rank, Hand.is_straight_flush, py_and,
    Hand.is_four_of_a_kind, Hand.is_full_house.
  rewrite Ef, Eb, E4, E2 by done. by destruct bf.
Qed.

Lemma straight_has_no_pair_witness :
  Hand.is_one_pair (Hand.init wheel) = Ok false.
Proof.
  assert (Hne : wheel <> []) by discriminate.
  assert (Hs : Hand.is_straight (Hand.init wheel) = Ok true)
    by (vm_compute; reflexivity).
  exact (proj1 (proj2 (proj2 (proj2 (proj2 (proj2
    (straight_has_no_pair wheel Hne Hs))))))).
Defined.

(** ** Hand: comparison *)

Lemma rank_value_inj (r1 r2 : Rank.t) :
  r1 ∈ categories.*2 -> r2 ∈ categories.*2 ->
  Rank.value r1 = Rank.value r2 -> r1 = r2.
Proof.
  intros H1 H2 E.
  assert (Hnd : NoDup (Rank.value <$> categories.*2)).
  { vm_compute.
    repeat (constructor; [rewrite ?elem_of_cons, elem_of_nil; lia|]).
    constructor. }
  apply list_elem_of_lookup in H1 as [i Hi], H2 as [j Hj].
  assert (i = j) as ->; [|congruence].
  eapply NoDup_lookup; [exact Hnd| |];
    rewrite list_lookup_fmap; [by rewrite Hi|by rewrite Hj, E].
Qed.

(** X15: two non-empty hands compare by the values of their ranks:
    [h1 < h2] is [h2 > h1], a hand is never both less and greater than
    another, and the hands are neither less nor greater exactly when
    their ranks are the same. *)
Theorem hand_comparison (l1 l2 : list Card.t) :
  l1 <> [] -> l2 <> [] ->
  let h1 := Hand.init l1 in
  let h2 := Hand.init l2 in
  exists r1 r2,
    Hand.rank h1 = Ok r1 /\ Hand.rank h2 = Ok r2
    /\ Hand.lt h1 h2 = Ok (Rank.value r1 <? Rank.value r2)
    /\ Hand.gt h1 h2 = Ok (Rank.value r1 >? Rank.value r2)
    /\ Hand.gt h2 h1 = Hand.lt h1 h2
    /\ ~ (Hand.lt h1 h2 = Ok true /\ Hand.gt h1 h2 = Ok true)
    /\ (Hand.lt h1 h2 = Ok false /\ Hand.gt h1 h2 = Ok false <-> r1 = r2).
Proof.
  intros Hne1 Hne2 h1 h2. subst h1 h2.
  destruct (rank_first_match l1 Hne1) as (r1 & E1 & Hfm1).
  destruct (rank_first_match l2 Hne2) as (r2 & E2 & Hfm2).
  assert (Hin : forall h r, first_match h r -> r ∈ categories.*2).
  { intros h r (pre & chk & post & -> & _).
    rewrite fmap_app, fmap_cons, elem_of_app. right. by left. }
  apply Hin in Hfm1, Hfm2.
  exists r1, r2. unfold Hand.lt, Hand.gt. rewrite E1, E2. cbn [bind].
  split; [done|]. split; [done|]. split; [done|]. split; [done|].
  split; [by rewrite Z.gtb_ltb|]. split.
  - intros [[= H1] [= H2]]. apply Z.ltb_lt in H1. apply Z.gtb_gt in H2. lia.
  - split.
    + intros [[= H1] [= H2]]. apply (rank_value_inj r1 r2 Hfm1 Hfm2).
      apply Z.ltb_ge in H1. rewrite Z.gtb_ltb in H2. apply Z.ltb_ge in H2. lia.
    + intros ->. rewrite Z.gtb_ltb, Z.ltb_irrefl. done.
Qed.

Lemma hand_comparison_witness :
  Hand.lt (Hand.init wheel) (Hand.init threes_full_of_sevens) = Ok true
  /\ Hand.gt (Hand.init threes_full_of_sevens) (Hand.init wheel) = Ok true.
Proof.
  assert (H1 : wheel <> []) by discriminate.
  assert (H2 : threes_full_of_sevens <> []) by discriminate.
  destruct (hand_comparison wheel threes_full_of_sevens H1 H2)
    as (r1 & r2 & _ & _ & _ & _ & Hgt & _).
  rewrite Hgt. split; vm_compute; reflexivity.
Defined.

(** ** Card: what [get] accepts *)

Section DictLookup.
Context {V : Type} (key : V -> string).



End DictLookup.








(** ** Hand: parsing *)

Lemma valid_code (c : Card.t) :
  valid_card c ->
  exists a b,
    code c = String a (String b EmptyString)
    /\ Ascii.eqb a " " = false /\ Ascii.eqb a "," = false
    /\ Ascii.eqb b " " = false /\ Ascii.eqb b "," = false
    /\ upper_ascii a = a /\ upper_ascii b = b.
Proof.
  destruct c as [v s]. unfold valid_card. cbn [Card.value Card.suit].
  rewrite Values_all_eq, Suits_all_eq. intros [Hv Hs].
  repeat (apply elem_of_cons in Hs as [->|Hs]);
    try (by apply elem_of_nil in Hs);
    repeat (apply elem_of_cons in Hv as [->|Hv]);
    try (by apply elem_of_nil in Hv);
    eexists _, _; (split; [reflexivity|]); vm_compute; repeat split.
Qed.

Lemma normalise_code (a b : ascii) (rest : string) :
  Ascii.eqb a " " = false -> Ascii.eqb b " " = false ->
  upper_ascii a = a -> upper_ascii b = b ->
  upper (Hand.remove_spaces (String a (String b rest)))
  = String a (String b (upper (Hand.remove_spaces rest))).
Proof. intros Ha Hb Ua Ub. simpl. rewrite Ha, Hb. simpl. by rewrite Ua, Ub. Qed.

Lemma split_code (a b : ascii) (rest : list string) (s : string) :
  Ascii.eqb a "," = false -> Ascii.eqb b "," = false ->
  Hand.split_commas (String a (String b EmptyString)) s = rest ->
  Hand.split_commas EmptyString (String a (String b s)) = rest.
Proof. intros Ha Hb <-. simpl. by rewrite Ha, Hb. Qed.

Lemma split_hand_text (cards : list Card.t) :
  cards ≠ [] -> Forall valid_card cards ->
  Hand.split_commas EmptyString (upper (Hand.remove_spaces (hand_text cards)))
  = code <$> cards.
Proof.
  induction cards as [|c cards IH]; [done|]. intros _ Hall.
  apply Forall_cons in Hall as [Hc Hall].
  destruct (valid_code c Hc) as (a & b & Ec & Ha1 & Ha2 & Hb1 & Hb2 & Ha & Hb).
  cbn [hand_text]. rewrite fmap_cons, !Ec. destruct cards as [|c' cards].
  - rewrite normalise_code by done. by apply split_code.
  - change (String a (String b EmptyString) ++ ", " ++ hand_text (c' :: cards))%string
      with (String a (String b (String "," (String " " (hand_text (c' :: cards)))))).
    rewrite normalise_code by done. apply split_code; [done|done|].
    change (Hand.remove_spaces (String "," (String " " (hand_text (c' :: cards)))))
      with (String "," (Hand.remove_spaces (hand_text (c' :: cards)))).
    change (upper (String "," (Hand.remove_spaces (hand_text (c' :: cards)))))
      with (String "," (upper (Hand.remove_spaces (hand_text (c' :: cards))))).
    cbn [Hand.split_commas Ascii.eqb Bool.eqb]. f_equal. by apply IH.
Qed.

Lemma get_cards_codes (cards : list Card.t) :
  Forall valid_card cards -> Hand.get_cards (code <$> cards) = Ok cards.
Proof.
  induction 1 as [|c cards Hc _ IH]; [done|].
  rewrite fmap_cons. cbn [Hand.get_cards]. by rewrite get_code, IH.
Qed.

(** X18: the text of a non-empty hand of standard cards, their letter
    codes separated by a comma and a space, parses to the hand of these
    cards. *)
Theorem hand_get_roundtrip (cards : list Card.t) :
  cards <> [] -> Forall valid_card cards ->
  Hand.get (hand_text cards) = Ok (Hand.init cards).
Proof.
  intros Hne Hall. unfold Hand.get.
  by rewrite split_hand_text, get_cards_codes.
Qed.

Lemma hand_get_roundtrip_witness :
  Hand.get "AS, 2C, 3D, 4H, 5S" = Ok (Hand.init wheel).
Proof.
  apply (hand_get_roundtrip wheel); [discriminate|].
  unfold wheel, valid_card. rewrite Values_all_eq, Suits_all_eq.
  repeat constructor; cbn [Card.value Card.suit];
    rewrite ?elem_of_cons; tauto.
Defined.






(** ** Card: colour, code point and display *)

Lemma NoDup_fmap_elem_inj {A B} (f : A -> B) (l : list A) (x y : A) :
  NoDup (f <$> l) -> x ∈ l -> y ∈ l -> f x = f y -> x = y.
Proof.
  intros Hnd [i Hi]%list_elem_of_lookup [j Hj]%list_elem_of_lookup E.
  assert (i = j) as ->; [|congruence].
  eapply NoDup_lookup; [exact Hnd| |];
    rewrite list_lookup_fmap; [by rewrite Hi|by rewrite Hj, E].
Qed.

(** X20: a card with one of the four suits is red or black and not both:
    black exactly for spades and clubs, red exactly for diamonds and
    hearts. *)
Theorem card_color (c : Card.t) :
  Card.suit c ∈ Card.Suits.all ->
  Card.is_red c = negb (Card.is_black c)
  /\ (Card.is_black c = true
      <-> Card.suit c = Card.Suits.SPADES \/ Card.suit c = Card.Suits.CLUBS)
  /\ (Card.is_red c = true
      <-> Card.suit c = Card.Suits.DIAMONDS \/ Card.suit c = Card.Suits.HEARTS).
Proof.
  destruct c as [v s]. cbn [Card.suit]. rewrite Suits_all_eq.
  unfold Card.is_red, Card.is_black, Card.color. cbn [Card.suit].
  intros Hs.
  repeat (apply elem_of_cons in Hs as [->|Hs]);
    try (by apply elem_of_nil in Hs);
    (split; [reflexivity|]);
    split;
    (split;
     [intros Hb; first [by left | by right | discriminate Hb]
     |intros [H|H]; first [reflexivity | discriminate H]]).
Qed.

Lemma card_color_witness :
  Card.is_red king_of_hearts = negb (Card.is_black king_of_hearts).
Proof.
  assert (Hs : Card.suit king_of_hearts ∈ Card.Suits.all).
  { rewrite Suits_all_eq, !elem_of_cons. do 3 right. by left. }
  exact (proj1 (card_color king_of_hearts Hs)).
Defined.

Lemma unicode_range_base_order :
  Forall (fun c =>
            Suit.unicode (Card.suit c) + 1 <= Card.unicode c
              <= Suit.unicode (Card.suit c) + 14
            /\ Card.unicode c <> Suit.unicode (Card.suit c) + 12)
         Deck.base_order.
Proof. apply (bool_decide_unpack _). vm_compute. exact I. Qed.

Lemma unicode_NoDup_base_order : NoDup (Card.unicode <$> Deck.base_order).
Proof. apply (bool_decide_unpack _). vm_compute. exact I. Qed.

(** X21: the code point of the [unicode] of a standard card lies from 1 to
    14 above the base of its suit and is never the 12th above it, the
    knight; distinct standard cards have distinct code points. *)
Theorem unicode_card (c : Card.t) :
  valid_card c ->
  Suit.unicode (Card.suit c) + 1 <= Card.unicode c
    <= Suit.unicode (Card.suit c) + 14
  /\ Card.unicode c <> Suit.unicode (Card.suit c) + 12
  /\ forall c', valid_card c' -> Card.unicode c' = Card.unicode c -> c' = c.
Proof.
  intros Hc. apply elem_of_base_order in Hc.
  pose proof unicode_range_base_order as Hr. rewrite Forall_forall in Hr.
  destruct (Hr c Hc) as [Hrange Hknight].
  split; [done|]. split; [done|].
  intros c' Hc'%elem_of_base_order E.
  apply (NoDup_fmap_elem_inj Card.unicode Deck.base_order);
    [apply unicode_NoDup_base_order|done|done|done].
Qed.

Lemma unicode_card_witness :
  Card.unicode king_of_hearts <> Suit.unicode Card.Suits.HEARTS + 12.
Proof.
  assert (Hc : valid_card king_of_hearts).
  { split; [rewrite Values_all_eq|rewrite Suits_all_eq];
      rewrite !elem_of_cons; tauto. }
  exact (proj1 (proj2 (unicode_card king_of_hearts Hc))).
Defined.




(** ** Hand: the counters *)

Lemma counter_add_sum (k : Z) (c : list (Z * Z)) :
  foldr Z.add 0 (counter_add k c).*2 = foldr Z.add 0 c.*2 + 1.
Proof.
  induction c as [|[k' n] c IH]; [done|]. cbn [counter_add].
  destruct (k =? k'); rewrite !fmap_cons; cbn [foldr snd]; rewrite ?IH; lia.
Qed.

Lemma Counter_sum (l : list Z) :
  foldr Z.add 0 (Counter l).*2 = Z.of_nat (length l).
Proof.
  induction l as [|k l IH] using rev_ind; [done|].
  rewrite Counter_snoc, counter_add_sum, IH, length_app. simpl. lia.
Qed.

Lemma Counter_elem_of (l : list Z) (k n : Z) :
  (k, n) ∈ Counter l <-> k ∈ l /\ n = multiplicity k l.
Proof.
  destruct (Counter_spec l) as (Hnd & Hkeys & Hc).
  rewrite Forall_forall in Hc. split.
  - intros Hin. split; [|by apply (Hc (k, n))].
    apply Hkeys, list_elem_of_fmap. by exists (k, n).
  - intros [Hk ->]. apply Hkeys, list_elem_of_fmap in Hk as ([k' n] & -> & Hin).
    by rewrite <- (Hc _ Hin).
Qed.

(** X23: the value counter of a hand has one entry for each distinct value
    strength of its cards, with the number of cards of that strength, and
    the suit counter one for each distinct suit value, with the number of
    cards of that suit value; the counts of each add up to the size of the
    hand. *)
Theorem hand_counters (cards : list Card.t) :
  let h := Hand.init cards in
  let vs := strength <$> cards in
  let ss := (fun c => Suit.value (Card.suit c)) <$> cards in
  NoDup (Hand.value_counts h).*1
  /\ NoDup (Hand.suit_counts h).*1
  /\ (forall k n, (k, n) ∈ Hand.value_counts h
                  <-> k ∈ vs /\ n = multiplicity k vs)
  /\ (forall k n, (k, n) ∈ Hand.suit_counts h
                  <-> k ∈ ss /\ n = multiplicity k ss)
  /\ foldr Z.add 0 (Hand.value_counts h).*2 = Hand.size h
  /\ foldr Z.add 0 (Hand.suit_counts h).*2 = Hand.size h.
Proof.
  intros h vs ss. subst h. rewrite init_size.
  unfold Hand.init. cbn [Hand.value_counts Hand.suit_counts].
  assert (Hv : (fun x => Value.value (Card.value x)) <$> py_sorted Card.lt cards
               ≡ₚ vs) by (by rewrite py_sorted_Permutation).
  assert (Hs : (fun x => Suit.value (Card.suit x)) <$> py_sorted Card.lt cards
               ≡ₚ ss) by (by rewrite py_sorted_Permutation).
  split; [apply Counter_spec|]. split; [apply Counter_spec|].
  split; [|split; [|split]].
  - intros k n. rewrite Counter_elem_of, (multiplicity_Permutation k _ _ Hv).
    split; intros [H1 H2]; (split; [|done]); [by rewrite <- Hv|by rewrite Hv].
  - intros k n. rewrite Counter_elem_of, (multiplicity_Permutation k _ _ Hs).
    split; intros [H1 H2]; (split; [|done]); [by rewrite <- Hs|by rewrite Hs].
  - by rewrite Counter_sum, length_fmap, py_sorted_length.
  - by rewrite Counter_sum, length_fmap, py_sorted_length.
Qed.

(** ** Deck: repeated shuffles *)

Lemma shuffle_loop_app (n m : nat) : forall (d : Deck.t) (g : Rng),
  Deck.shuffle_loop (n + m) d g
  = let '(d1, g1) := Deck.shuffle_loop n d g in Deck.shuffle_loop m d1 g1.
Proof.
  induction n as [|n IH]; intros d g; simpl; [done|].
  destruct (random_shuffle (Deck.cards d) g) as [cs g']. apply IH.
Qed.

(** X24: a shuffle of [a + b] repetitions is a shuffle of [a] followed by
    a shuffle of [b] that goes on with the random source where the first
    left it. *)
Theorem shuffle_then_shuffle (d : Deck.t) (a b : Z) (g : Rng) :
  0 <= a -> 0 <= b ->
  Deck.shuffle d (a + b) g
  = let '(d1, g1) := Deck.shuffle d a g in Deck.shuffle d1 b g1.
Proof.
  intros Ha Hb. unfold Deck.shuffle.
  replace (range_len (a + b)) with (range_len a + range_len b)%nat
    by (unfold range_len; lia).
  apply shuffle_loop_app.
Qed.

Lemma shuffle_then_shuffle_witness :
  Deck.shuffle (Deck.mk [two_of_spades; ace_of_spades] 0 0) (1 + 1) rng_zero
  = let '(d1, g1) :=
      Deck.shuffle (Deck.mk [two_of_spades; ace_of_spades] 0 0) 1 rng_zero in
    Deck.shuffle d1 1 g1.
Proof. apply shuffle_then_shuffle; lia. Defined.

(** ** Hand: a flush of distinct cards has no pair *)

Lemma is_flush_same_suit (cards : list Card.t) (c c' : Card.t) :
  Hand.is_flush (Hand.init cards) = Ok true ->
  c ∈ cards -> c' ∈ cards ->
  Suit.value (Card.suit c) = Suit.value (Card.suit c').
Proof.
  unfold Hand.is_flush. rewrite hand_suit_set. intros [= Hs] Hc Hc'.
  apply Z.eqb_eq in Hs.
  apply (size_singleton_inv
           (list_to_set ((fun x => Suit.value (Card.suit x)) <$> cards) : gset Z));
    [lia| |]; apply elem_of_list_to_set, list_elem_of_fmap; by eexists.
Qed.

Lemma no_pair_checks (cards : list Card.t) :
  cards ≠ [] -> NoDup (strength <$> cards) ->
  let h := Hand.init cards in
  Hand.is_four_of_a_kind h = Ok false
  /\ Hand.is_full_house h = Ok false
  /\ Hand.is_three_of_a_kind h = Ok false
  /\ Hand.is_two_pair h = Ok false
  /\ Hand.is_one_pair h = Ok false.
Proof.
  intros Hne Hnd h. subst h.
  pose proof (groups_all_one cards Hnd) as Hone.
  pose proof (groups_nonempty cards Hne) as Hg.
  unfold Hand.is_four_of_a_kind, Hand.is_three_of_a_kind, Hand.is_one_pair,
    Hand.is_full_house, Hand.is_two_pair.
  rewrite !largest_group_check, vals_groups by done.
  destruct (groups cards) as [|x g]; [done|].
  apply Forall_cons in Hone as [<- _]. cbn [head].
  repeat split; f_equal; apply bool_decide_eq_false_2;
    first [by intros [= ?] | simpl; by intros [= ?]].
Qed.

(** X25: a non-empty hand of standard cards, all different, that is a
    flush has no value twice: none of the multiplicity checks holds of it,
    and its rank is the straight flush when it is a straight and the flush
    when it is not. *)
Theorem flush_has_no_pair (cards : list Card.t) :
  cards <> [] -> Forall valid_card cards -> NoDup cards ->
  let h := Hand.init cards in
  Hand.is_flush h = Ok true ->
  NoDup (strength <$> cards)
  /\ Hand.is_four_of_a_kind h = Ok false
  /\ Hand.is_full_house h = Ok false
  /\ Hand.is_three_of_a_kind h = Ok false
  /\ Hand.is_two_pair h = Ok false
  /\ Hand.is_one_pair h = Ok false
  /\ exists bs, Hand.is_straight h = Ok bs
       /\ Hand.rank h
          = Ok (if bs then Hand.Ranks.STRAIGHT_FLUSH else Hand.Ranks.FLUSH).
Proof.
  intros Hne Hall Hnd h Hf. subst h. rewrite Forall_forall in Hall.
  assert (Hvs : NoDup (strength <$> cards)).
  { apply NoDup_fmap_2_strong; [|done]. intros c c' Hc Hc' E.
    pose proof (is_flush_same_suit cards c c' Hf Hc Hc') as Es.
    destruct (Hall c Hc) as [Hv Hs], (Hall c' Hc') as [Hv' Hs'].
    destruct c as [v s], c' as [v' s']. cbn [Card.value Card.suit] in *.
    unfold strength in E. cbn [Card.value] in E. f_equal.
    - apply (NoDup_fmap_elem_inj Value.value Card.Values.all); try done.
      vm_compute.
      repeat (constructor; [rewrite ?elem_of_cons, elem_of_nil; lia|]).
      constructor.
    - apply (NoDup_fmap_elem_inj Suit.value Card.Suits.all); try done.
      vm_compute.
      repeat (constructor; [rewrite ?elem_of_cons, elem_of_nil; lia|]).
      constructor. }
  destruct (no_pair_checks cards Hne Hvs) as (E4 & Efh & E3 & E2 & E1).
  cbv zeta in *.
  destruct (is_straight_spec cards Hne) as (bs & Es & _).
  repeat (split; [done|]). exists bs. split; [done|].
  unfold Hand.rank, Hand.is_straight_flush, py_and.
  rewrite Hf, Es, E4, Efh. by destruct bs.
Qed.

Lemma flush_has_no_pair_witness :
  Hand.is_one_pair (Hand.init spade_flush) = Ok false.
Proof.
  assert (Hne : spade_flush <> []) by discriminate.
  assert (Hall : Forall valid_card spade_flush).
  { unfold spade_flush, valid_card. rewrite Values_all_eq, Suits_all_eq.
    repeat constructor; cbn [Card.value Card.suit];
      rewrite ?elem_of_cons; tauto. }
  assert (Hnd : NoDup spade_flush).
  { apply (NoDup_fmap_1 strength). vm_compute.
    repeat (constructor; [rewrite ?elem_of_cons, elem_of_nil; lia|]).
    constructor. }
  assert (Hf : Hand.is_flush (Hand.init spade_flush) = Ok true)
    by (vm_compute; reflexivity).
  exact (proj1 (proj2 (proj2 (proj2 (proj2 (proj2
    (flush_has_no_pair spade_flush Hne Hall Hnd Hf))))))).
Defined.
